(** * Campaign composition and sender-credential handling

    A shallow embedding of the campaign page (AppPage) and of the Google
    SMTP settings tab (GoogleTab): the campaign validator, the credential
    reconciliation effect, the draft editor's handlers and the handlers
    that talk to the remote store.

    Conventions.
    - A JavaScript string is a [string], its characters having codes
      below 256; [===] on strings is [String.eqb].
    - A JavaScript [number] that holds a sending rate is a [JsNumber]: an
      integer, [NaN] (what [parseInt] yields when no digit is read) or
      one of the two infinite values (what it yields when the digits
      denote a number beyond the doubles).
    - The [Set] of addresses built by the reconciliation effect is a
      [gset string].
    - An awaited call of the store's client does not throw: it answers
      with the pair [{ data, error }].
    - A handler runs to completion before the next one starts; what it
      reads from the component's variables is the state at its start. *)

From Stdlib Require Import String Ascii ZArith List Bool Lia.
From stdpp Require Import base gmap strings list.
Import ListNotations.
Open Scope string_scope.
Open Scope list_scope.

(** ** Data model *)

(** [smtpProvider: 'amazon' | 'gmail'] *)
Inductive SmtpProvider := amazon | gmail.

(** [type: 'body' | 'attachment'] *)
Inductive TemplateType := body | attachment.

Inductive JsNumber := Num (z : Z) | NaN | Infinity (negative : bool).

#[global] Instance TemplateType_eq_dec : EqDecision TemplateType.
Proof. solve_decision. Defined.

(** Modelled from the spec: the [Template] type is imported from
    [features/templates/types], which is not among the sources; the
    template store lists templates "each with {id, name, format}". *)
Module Template.
Record t := { id : string; name : string; format : string }.
End Template.

(** The elements of [Campaign.templates]. *)
Module CampaignTemplate.
Record t := { template : Template.t; type : TemplateType }.
End CampaignTemplate.

(** [EmailEntry] is imported from [./Emails]; the page builds its values
    as [{ address, smtpProvider }]. *)
Module EmailEntry.
Record t := { address : string; smtpProvider : SmtpProvider }.
End EmailEntry.

(** [interface EmailWithRate extends EmailEntry { sendingRate?: number }];
    an absent [sendingRate] is [None]. *)
Module EmailWithRate.
Record t := { entry :> EmailEntry.t; sendingRate : option JsNumber }.
Definition address (e : t) : string := EmailEntry.address e.
Definition smtpProvider (e : t) : SmtpProvider := EmailEntry.smtpProvider e.
End EmailWithRate.

Module SESEmail.
Record t := { address : string; testing : option bool }.
End SESEmail.

Module GoogleEmail.
Record t := { address : string; appPassword : string; testing : option bool }.
End GoogleEmail.

Module Campaign.
Record t := {
  id : string;
  name : string;
  isActive : bool;
  city : string;
  subjectLines : list string;
  daysTillClose : string;
  templates : list CampaignTemplate.t;
  emails : list EmailWithRate.t;
  lastModified : string
}.

(** [{ ...campaign, emails: es }] *)
Definition with_emails (c : t) (es : list EmailWithRate.t) : t :=
  {| id := id c; name := name c; isActive := isActive c; city := city c;
     subjectLines := subjectLines c; daysTillClose := daysTillClose c;
     templates := templates c; emails := es;
     lastModified := lastModified c |}.

(** [{ ...c, isActive, lastModified }] *)
Definition with_status (c : t) (a : bool) (now : string) : t :=
  {| id := id c; name := name c; isActive := a; city := city c;
     subjectLines := subjectLines c; daysTillClose := daysTillClose c;
     templates := templates c; emails := emails c;
     lastModified := now |}.
End Campaign.

(** ** The remote store

    What a handler sends is a [Request]; what the store answers is a
    [Response], the pair [{ data, error }] of the client library. *)

(** The object written to the [campaigns] table; a column the object
    does not mention is [None]. *)
Module CampaignRow.
Record t := {
  user_id : option string;
  name : string;
  is_active : bool;
  city : option string;
  subject_lines : list string;
  days_till_close : string;
  updated_at : string
}.
End CampaignRow.

Module CampaignTemplateRow.
Record t := {
  campaign_id : string;
  template_id : string;
  template_type : TemplateType
}.
End CampaignTemplateRow.

Module CampaignEmailRow.
Record t := {
  campaign_id : string;
  email_address : string;
  provider : SmtpProvider;
  sending_rate : JsNumber;
  updated_at : string
}.
End CampaignEmailRow.

(** A campaign as the select of [fetchCampaigns] returns it, with its
    associations nested; a null column is [None]. *)
Module CampaignRecord.
Record template_link := { templates : Template.t; template_type : TemplateType }.
Record email_link := {
  email_address : string;
  provider : SmtpProvider;
  sending_rate : option JsNumber
}.
Record t := {
  id : string;
  name : string;
  is_active : bool;
  city : string;
  subject_lines : option (list string);
  days_till_close : option string;
  campaign_templates : list template_link;
  campaign_emails : list email_link;
  updated_at : string
}.
End CampaignRecord.

Inductive Request :=
| AuthGetUser
| SelectCampaigns (user_id : string)
| InsertCampaign (row : CampaignRow.t)
| UpdateCampaign (id : string) (row : CampaignRow.t)
| UpdateCampaignStatus (id : string) (is_active : bool) (updated_at : string)
| DeleteCampaign (id : string)
| DeleteCampaignTemplates (campaign_id : string)
| DeleteCampaignEmails (campaign_id : string)
| InsertCampaignTemplates (rows : list CampaignTemplateRow.t)
| InsertCampaignEmails (rows : list CampaignEmailRow.t)
| InsertGoogleEmail (user_id address app_password : string)
| DeleteGoogleEmail (user_id address : string).

Inductive Data :=
| NoData
| CampaignData (id : string)
| CampaignsData (rows : list CampaignRecord.t).

(** The error object of the store; only its [code] is inspected. *)
Record StoreError := { code : string }.

Record Response := { data : Data; error : option StoreError }.

(** The world outside the page: the signed-in user ([user.data.user],
    [None] when nobody is signed in), the store's answer to each request
    and the clock ([now k] is what the [k]-th [new Date().toISOString()]
    of a handler run returns). *)
Record Env := {
  auth_user : option string;
  exec : Request -> Response;
  now : nat -> string
}.

(** ** Handlers as computations

    A handler reads the environment, changes the component state of type
    [S], and leaves a trace of what it did to the outside: the requests it
    sent, the [alert]s it raised, what it wrote to the console. It ends
    normally or by a [throw]. *)

Inductive Exn :=
| JsError (message : string)
| StoreFailure (e : StoreError).

Inductive Effect :=
| Remote (r : Request)
| Alert (message : string)
| ConsoleError (label : string).

Definition M (S A : Type) : Type :=
  Env -> S -> list Effect -> (Exn + A) * S * list Effect.

#[global] Instance M_ret {S} : MRet (M S) :=
  fun A (a : A) _ s tr => (inr a, s, tr).

#[global] Instance M_bind {S} : MBind (M S) :=
  fun A B (k : A -> M S B) (m : M S A) env s tr =>
    match m env s tr with
    | (inr a, s', tr') => k a env s' tr'
    | (inl e, s', tr') => (inl e, s', tr')
    end.

Definition ret {S A} (a : A) : M S A := mret a.

Definition throw {S A} (e : Exn) : M S A :=
  fun _ s tr => (inl e, s, tr).

(** [try { m } catch (error) { h }] *)
Definition try_catch {S A} (m : M S A) (h : Exn -> M S A) : M S A :=
  fun env s tr =>
    match m env s tr with
    | (inl e, s', tr') => h e env s' tr'
    | r => r
    end.

(** [try { m } finally { f }] *)
Definition try_finally {S A} (m : M S A) (f : M S unit) : M S A :=
  fun env s tr =>
    match m env s tr with
    | (r, s', tr') =>
        match f env s' tr' with
        | (inr _, s'', tr'') => (r, s'', tr'')
        | (inl e, s'', tr'') => (inl e, s'', tr'')
        end
    end.

Definition get {S} : M S S :=
  fun _ s tr => (inr s, s, tr).

Definition modify {S} (f : S -> S) : M S unit :=
  fun _ s tr => (inr tt, f s, tr).

Definition emit {S} (e : Effect) : M S unit :=
  fun _ s tr => (inr tt, s, (tr ++ [e])%list).

Definition alert {S} (message : string) : M S unit := emit (Alert message).

Definition console_error {S} (label : string) : M S unit :=
  emit (ConsoleError label).

(** [await supabase.from(..)...]: the request is sent and answered. *)
Definition remote {S} (r : Request) : M S Response :=
  fun env s tr => (inr (exec env r), s, (tr ++ [Remote r])%list).

(** [await supabase.auth.getUser()], then [user.data.user]. *)
Definition getUser {S} : M S (option string) :=
  fun env s tr => (inr (auth_user env), s, (tr ++ [Remote AuthGetUser])%list).

(** The [k]-th [new Date().toISOString()] of the handler. *)
Definition newDate {S} (k : nat) : M S string :=
  fun env s tr => (inr (now env k), s, tr).

(** The clock, for code that reads it inside a callback: [clock k] is the
    [k]-th reading of the handler run. *)
Definition readings {S} : M S (nat -> string) :=
  fun env s tr => (inr (now env), s, tr).

(** [const user = ...; if (!user.data.user) throw new Error(..)] *)
Definition requireUser {S} : M S string :=
  user ← getUser;
  match user with
  | Some uid => ret uid
  | None => throw (JsError "User not authenticated")
  end.

(** [if (error) throw error] *)
Definition throwIfError {S} (r : Response) : M S unit :=
  match error r with
  | Some e => throw (StoreFailure e)
  | None => ret tt
  end.

(** Running a handler from a state, with an empty trace. *)
Definition run {S A} (m : M S A) (env : Env) (s : S)
  : (Exn + A) * S * list Effect :=
  m env s [].

Definition state_of {S A} (r : (Exn + A) * S * list Effect) : S := snd (fst r).
Definition trace_of {S A} (r : (Exn + A) * S * list Effect) : list Effect := snd r.
Definition result_of {S A} (r : (Exn + A) * S * list Effect) : Exn + A := fst (fst r).

(** The remote call behind an effect failed: nobody is signed in, or the
    store answered the request with an error. *)
Definition failed (env : Env) (e : Effect) : Prop :=
  match e with
  | Remote AuthGetUser => auth_user env = None
  | Remote r => error (exec env r) <> None
  | _ => False
  end.

(** ** The campaign page *)

Definition cities : list string :=
  ["New York"; "Los Angeles"; "Chicago"; "Houston"; "Phoenix";
   "Philadelphia"; "San Antonio"; "San Diego"; "Dallas"; "San Jose"].

Module AppPage.

(** *** The validator *)

(** The object [validateCampaign] returns: [{ valid, reason? }]. *)
Record Validation := { valid : bool; reason : option string }.

Definition invalid (r : string) : Validation :=
  {| valid := false; reason := Some r |}.

(** [t => t.type === 'body'] *)
Definition isBody (t : CampaignTemplate.t) : bool :=
  bool_decide (CampaignTemplate.type t = body).

Definition validateCampaign (campaign : Campaign.t) : Validation :=
  if Nat.eqb (length (Campaign.emails campaign)) 0 then
    invalid "At least one sender email is required"
  else if String.eqb (Campaign.city campaign) "" then
    invalid "A target city must be selected"
  else if Nat.eqb (length (Campaign.subjectLines campaign)) 0 then
    invalid "At least one subject line is required"
  else if negb (existsb isBody (Campaign.templates campaign)) then
    invalid "A body template is required"
  else {| valid := true; reason := None |}.

(** The number of body-role templates of a campaign. *)
Definition bodyCount (c : Campaign.t) : nat :=
  length (List.filter isBody (Campaign.templates c)).


(** *** Credential reconciliation *)

Definition availableEmails (sesEmails : list SESEmail.t)
    (googleEmails : list GoogleEmail.t) : list EmailEntry.t :=
  ((fun email => {| EmailEntry.address := SESEmail.address email;
                    EmailEntry.smtpProvider := amazon |}) <$> sesEmails)
  ++ ((fun email => {| EmailEntry.address := GoogleEmail.address email;
                       EmailEntry.smtpProvider := gmail |}) <$> googleEmails).

(** [new Set(availableEmails.map(email => email.address))] *)
Definition allEmailAddresses (sesEmails : list SESEmail.t)
    (googleEmails : list GoogleEmail.t) : gset string :=
  list_to_set (EmailEntry.address <$> availableEmails sesEmails googleEmails).

(** Some credential, of either provider, has the address [a]. *)
Definition heldBy (sesEmails : list SESEmail.t)
    (googleEmails : list GoogleEmail.t) (a : string) : Prop :=
  (exists s, s ∈ sesEmails /\ SESEmail.address s = a)
  \/ (exists g, g ∈ googleEmails /\ GoogleEmail.address g = a).

(** What the filter of the reconciliation effect makes of one campaign. *)
Definition reconcileCampaign (sesEmails : list SESEmail.t)
    (googleEmails : list GoogleEmail.t) (campaign : Campaign.t) : Campaign.t :=
  Campaign.with_emails campaign
    (filter (fun email : EmailWithRate.t =>
               EmailWithRate.address email
                 ∈ allEmailAddresses sesEmails googleEmails)
            (Campaign.emails campaign)).

(** The function handed to [setCampaigns] by the reconciliation effect. *)
Definition reconcile (sesEmails : list SESEmail.t)
    (googleEmails : list GoogleEmail.t)
    (prevCampaigns : list Campaign.t) : list Campaign.t :=
  reconcileCampaign sesEmails googleEmails <$> prevCampaigns.

(** *** Component state *)

Record State := {
  campaigns : list Campaign.t;
  currentCampaign : option Campaign.t;
  selectedTemplateId : string;
  isLoading : bool
}.

Definition setCampaigns (f : list Campaign.t -> list Campaign.t) : M State unit :=
  modify (fun s => {| campaigns := f (campaigns s);
                      currentCampaign := currentCampaign s;
                      selectedTemplateId := selectedTemplateId s;
                      isLoading := isLoading s |}).

Definition setCurrentCampaign (v : option Campaign.t) : M State unit :=
  modify (fun s => {| campaigns := campaigns s;
                      currentCampaign := v;
                      selectedTemplateId := selectedTemplateId s;
                      isLoading := isLoading s |}).

Definition setSelectedTemplateId (v : string) : M State unit :=
  modify (fun s => {| campaigns := campaigns s;
                      currentCampaign := currentCampaign s;
                      selectedTemplateId := v;
                      isLoading := isLoading s |}).

Definition setIsLoading (v : bool) : M State unit :=
  modify (fun s => {| campaigns := campaigns s;
                      currentCampaign := currentCampaign s;
                      selectedTemplateId := selectedTemplateId s;
                      isLoading := v |}).

(** The effect that runs when [sesEmails] or [googleEmails] change. *)
Definition reconcileEffect (sesEmails : list SESEmail.t)
    (googleEmails : list GoogleEmail.t) : M State unit :=
  setCampaigns (reconcile sesEmails googleEmails).

(** *** Loading the list *)

(** [x || d] on a string that may be null: null and the empty string
    are falsy. *)
Definition orString (x : option string) (d : string) : string :=
  match x with
  | Some s => if String.eqb s "" then d else s
  | None => d
  end.

Definition transformCampaign (campaign : CampaignRecord.t) : Campaign.t :=
  {| Campaign.id := CampaignRecord.id campaign;
     Campaign.name := CampaignRecord.name campaign;
     Campaign.isActive := CampaignRecord.is_active campaign;
     Campaign.city := CampaignRecord.city campaign;
     Campaign.subjectLines := default [] (CampaignRecord.subject_lines campaign);
     Campaign.daysTillClose := orString (CampaignRecord.days_till_close campaign) "NA";
     Campaign.templates :=
       map (fun ct => {| CampaignTemplate.template := CampaignRecord.templates ct;
                         CampaignTemplate.type := CampaignRecord.template_type ct |})
           (CampaignRecord.campaign_templates campaign);
     Campaign.emails :=
       map (fun ce => {| EmailWithRate.entry :=
                           {| EmailEntry.address := CampaignRecord.email_address ce;
                              EmailEntry.smtpProvider := CampaignRecord.provider ce |};
                         EmailWithRate.sendingRate := CampaignRecord.sending_rate ce |})
           (CampaignRecord.campaign_emails campaign);
     Campaign.lastModified := CampaignRecord.updated_at campaign |}.

Definition fetchCampaigns : M State unit :=
  try_finally
    (try_catch
       (uid ← requireUser;
        r ← remote (SelectCampaigns uid);
        throwIfError r;;
        match data r with
        | CampaignsData campaignsData =>
            setCampaigns (fun _ => map transformCampaign campaignsData)
        | _ => throw (JsError "TypeError")
        end)
       (fun _ =>
          console_error "Error fetching campaigns:";;
          alert "Failed to load campaigns. Please try again."))
    (setIsLoading false).

(** *** The draft *)

Definition handleCreateCampaign : M State unit :=
  t ← newDate 0;
  setCurrentCampaign
    (Some {| Campaign.id := "";
             Campaign.name := "New Campaign";
             Campaign.isActive := false;
             Campaign.city := List.hd "" cities;
             Campaign.subjectLines := [];
             Campaign.daysTillClose := "NA";
             Campaign.templates := [];
             Campaign.emails := [];
             Campaign.lastModified := t |}).

(** [Partial<Campaign>]: the fields the updates of the page mention; a
    field an update leaves out is [None]. *)
Module Updates.
Record t := {
  name : option string;
  city : option string;
  subjectLines : option (list string);
  daysTillClose : option string;
  templates : option (list CampaignTemplate.t);
  emails : option (list EmailWithRate.t)
}.
(** [{ templates: ts }] *)
Definition of_templates (ts : list CampaignTemplate.t) : t :=
  {| name := None; city := None; subjectLines := None;
     daysTillClose := None; templates := Some ts; emails := None |}.
(** [{ emails: es }] *)
Definition of_emails (es : list EmailWithRate.t) : t :=
  {| name := None; city := None; subjectLines := None;
     daysTillClose := None; templates := None; emails := Some es |}.
End Updates.

(** [{ ...currentCampaign, ...updates, lastModified }] *)
Definition applyUpdates (c : Campaign.t) (updates : Updates.t) (t : string)
  : Campaign.t :=
  {| Campaign.id := Campaign.id c;
     Campaign.name := default (Campaign.name c) (Updates.name updates);
     Campaign.isActive := Campaign.isActive c;
     Campaign.city := default (Campaign.city c) (Updates.city updates);
     Campaign.subjectLines :=
       default (Campaign.subjectLines c) (Updates.subjectLines updates);
     Campaign.daysTillClose :=
       default (Campaign.daysTillClose c) (Updates.daysTillClose updates);
     Campaign.templates :=
       default (Campaign.templates c) (Updates.templates updates);
     Campaign.emails := default (Campaign.emails c) (Updates.emails updates);
     Campaign.lastModified := t |}.

Definition handleUpdateCampaign (updates : Updates.t) : M State unit :=
  st ← get;
  match currentCampaign st with
  | None => ret tt
  | Some cur =>
      t ← newDate 0;
      setCurrentCampaign (Some (applyUpdates cur updates t))
  end.

(** [template.format === 'html' ? 'body' : 'attachment'] *)
Definition templateTypeOf (format : string) : TemplateType :=
  if String.eqb format "html" then body else attachment.

Definition handleAddTemplate (templates : list Template.t) : M State unit :=
  st ← get;
  if String.eqb (selectedTemplateId st) "" then ret tt else
  match currentCampaign st with
  | None => ret tt
  | Some cur =>
    match List.find (fun t => String.eqb (Template.id t) (selectedTemplateId st))
                    templates with
    | None => ret tt
    | Some template =>
      if existsb (fun t => String.eqb (Template.id (CampaignTemplate.template t))
                                      (Template.id template))
                 (Campaign.templates cur)
      then alert "This template has already been added to the campaign."
      else
        let templateType := templateTypeOf (Template.format template) in
        if bool_decide (templateType = body)
           && existsb isBody (Campaign.templates cur)
        then alert "Only one HTML template can be used as the email body. Please remove the existing body template first."
        else
          handleUpdateCampaign
            (Updates.of_templates
               (Campaign.templates cur
                ++ [{| CampaignTemplate.template := template;
                       CampaignTemplate.type := templateType |}]));;
          setSelectedTemplateId ""
    end
  end.

Definition handleAddEmail (email : EmailEntry.t) : M State unit :=
  st ← get;
  match currentCampaign st with
  | None => ret tt
  | Some cur =>
      handleUpdateCampaign
        (Updates.of_emails
           (Campaign.emails cur
            ++ [{| EmailWithRate.entry := email;
                   EmailWithRate.sendingRate := Some (Num 1440) |}]))
  end.

Definition handleUpdateEmailRate (email : EmailWithRate.t) (rate : JsNumber)
  : M State unit :=
  st ← get;
  match currentCampaign st with
  | None => ret tt
  | Some cur =>
      handleUpdateCampaign
        (Updates.of_emails
           ((fun e : EmailWithRate.t =>
               if String.eqb (EmailWithRate.address e)
                             (EmailWithRate.address email)
               then {| EmailWithRate.entry := EmailWithRate.entry e;
                       EmailWithRate.sendingRate := Some rate |}
               else e)
              <$> Campaign.emails cur))
  end.

(** *** Saving the draft *)

(** [x || d] on a number that may be undefined: undefined, [NaN] and 0
    are falsy, every other number is truthy. *)
Definition orNumber (x : option JsNumber) (d : Z) : JsNumber :=
  match x with
  | Some (Num z) => if Z.eqb z 0 then Num d else Num z
  | Some (Infinity negative) => Infinity negative
  | Some NaN | None => Num d
  end.

Definition templateRows (campaignId : string) (c : Campaign.t)
  : list CampaignTemplateRow.t :=
  map (fun ct =>
         {| CampaignTemplateRow.campaign_id := campaignId;
            CampaignTemplateRow.template_id :=
              Template.id (CampaignTemplate.template ct);
            CampaignTemplateRow.template_type := CampaignTemplate.type ct |})
      (Campaign.templates c).

Definition emailRows (campaignId now : string) (c : Campaign.t)
  : list CampaignEmailRow.t :=
  map (fun email : EmailWithRate.t =>
         {| CampaignEmailRow.campaign_id := campaignId;
            CampaignEmailRow.email_address := EmailWithRate.address email;
            CampaignEmailRow.provider := EmailWithRate.smtpProvider email;
            CampaignEmailRow.sending_rate :=
              orNumber (EmailWithRate.sendingRate email) 1440;
            CampaignEmailRow.updated_at := now |})
      (Campaign.emails c).

(** The object of the insert branch. *)
Definition insertRow (uid name now : string) (c : Campaign.t) : CampaignRow.t :=
  {| CampaignRow.user_id := Some uid;
     CampaignRow.name := name;
     CampaignRow.is_active := false;
     CampaignRow.city := Some (Campaign.city c);
     CampaignRow.subject_lines := Campaign.subjectLines c;
     CampaignRow.days_till_close := Campaign.daysTillClose c;
     CampaignRow.updated_at := now |}.

(** The object of the update branch. *)
Definition updateRow (name now : string) (c : Campaign.t) : CampaignRow.t :=
  {| CampaignRow.user_id := None;
     CampaignRow.name := name;
     CampaignRow.is_active := false;
     CampaignRow.city := None;
     CampaignRow.subject_lines := Campaign.subjectLines c;
     CampaignRow.days_till_close := Campaign.daysTillClose c;
     CampaignRow.updated_at := now |}.

(** The campaign row is written: inserted when the draft has no id yet,
    updated otherwise. The result is the row's id. *)
Definition writeCampaignRow (uid name now : string) (cur : Campaign.t)
  : M State string :=
  if String.eqb (Campaign.id cur) "" then
    r ← remote (InsertCampaign (insertRow uid name now cur));
    throwIfError r;;
    match data r with
    | CampaignData id => ret id
    | _ => throw (JsError "TypeError")
    end
  else
    r ← remote (UpdateCampaign (Campaign.id cur) (updateRow name now cur));
    throwIfError r;;
    ret (Campaign.id cur).

Definition handleSaveCampaign (name : string) : M State unit :=
  st ← get;
  match currentCampaign st with
  | None => ret tt
  | Some cur =>
    try_catch
      (uid ← requireUser;
       now ← newDate 0;
       campaignId ← writeCampaignRow uid name now cur;
       remote (DeleteCampaignTemplates campaignId);;
       remote (DeleteCampaignEmails campaignId);;
       (if Nat.ltb 0 (length (Campaign.templates cur)) then
          r ← remote (InsertCampaignTemplates (templateRows campaignId cur));
          throwIfError r
        else ret tt);;
       (if Nat.ltb 0 (length (Campaign.emails cur)) then
          r ← remote (InsertCampaignEmails (emailRows campaignId now cur));
          throwIfError r
        else ret tt);;
       fetchCampaigns;;
       setCurrentCampaign None)
      (fun _ =>
         console_error "Error saving campaign:";;
         alert "Failed to save campaign. Please try again.")
  end.

(** *** The list view *)

Definition handleDeleteCampaign (id : string) : M State unit :=
  try_catch
    (r ← remote (DeleteCampaign id);
     throwIfError r;;
     setCampaigns
       (List.filter (fun c => negb (String.eqb (Campaign.id c) id))))
    (fun _ =>
       console_error "Error deleting campaign:";;
       alert "Failed to delete campaign. Please try again.").

(** [alert(validation.reason)]: an undefined reason is shown as the text
    "undefined". *)
Definition reasonText (v : Validation) : string :=
  default "undefined" (reason v).

(** [prev.map(c => c.id === campaignId
       ? { ...c, isActive, lastModified: new Date().toISOString() } : c)]:
    the callback reads the clock once for each campaign with the id, in
    the order of the list; [k] is the number of the next reading. *)
Fixpoint setStatus (campaignId : string) (isActive : bool)
    (clock : nat -> string) (k : nat) (prev : list Campaign.t)
  : list Campaign.t :=
  match prev with
  | [] => []
  | c :: rest =>
      if String.eqb (Campaign.id c) campaignId
      then Campaign.with_status c isActive (clock k)
           :: setStatus campaignId isActive clock (S k) rest
      else c :: setStatus campaignId isActive clock k rest
  end.

Definition handleToggleActive (campaignId : string) (isActive : bool)
  : M State unit :=
  st ← get;
  match List.find (fun c => String.eqb (Campaign.id c) campaignId)
                  (campaigns st) with
  | None => ret tt
  | Some campaign =>
    let validation := validateCampaign campaign in
    if isActive && negb (valid validation) then
      alert (reasonText validation)
    else
      try_catch
        (t0 ← newDate 0;
         r ← remote (UpdateCampaignStatus campaignId isActive t0);
         throwIfError r;;
         clock ← readings;
         setCampaigns (setStatus campaignId isActive clock 1))
        (fun _ =>
           console_error "Error updating campaign status:";;
           alert "Failed to update campaign status. Please try again.")
  end.

(** [onControl]: the click landed inside the toggle or on the delete
    button ([target.closest(..)] found one of them). *)
Definition handleCampaignClick (onControl : bool) (campaign : Campaign.t)
  : M State unit :=
  if onControl then ret tt
  else if Campaign.isActive campaign then
    alert "Cannot edit an active campaign. Please deactivate it first."
  else setCurrentCampaign (Some campaign).

(** *** The sender select and the rate input *)

(** The addresses the select offers for a draft. *)
Definition senderOptions (sesEmails : list SESEmail.t)
    (googleEmails : list GoogleEmail.t) (cur : Campaign.t)
  : list EmailEntry.t :=
  List.filter
    (fun email =>
       negb (existsb (fun e : EmailWithRate.t =>
                        String.eqb (EmailWithRate.address e)
                                   (EmailEntry.address email))
                     (Campaign.emails cur)))
    (availableEmails sesEmails googleEmails).

(** The select's [onChange], [value] being [e.target.value]. *)
Definition senderOnChange (sesEmails : list SESEmail.t)
    (googleEmails : list GoogleEmail.t) (value : string) : M State unit :=
  match List.find (fun email => String.eqb (EmailEntry.address email) value)
                  (availableEmails sesEmails googleEmails) with
  | Some email => handleAddEmail email
  | None => ret tt
  end.


Definition isStrWhiteSpace (c : ascii) : bool :=
  let n := nat_of_ascii c in
  Nat.leb 9 n && Nat.leb n 13 || Nat.eqb n 32 || Nat.eqb n 160.

Fixpoint skipWhiteSpace (s : string) : string :=
  match s with
  | String c s' => if isStrWhiteSpace c then skipWhiteSpace s' else s
  | EmptyString => s
  end.

Definition digitOf (c : ascii) : option Z :=
  let n := nat_of_ascii c in
  if Nat.leb 48 n && Nat.leb n 57 then Some (Z.of_nat (n - 48)) else None.

(** The longest prefix of decimal digits, read as a number; [acc] is
    [None] until a digit has been read. *)
Fixpoint readDigits (s : string) (acc : option Z) : option Z :=
  match s with
  | String c s' =>
      match digitOf c with
      | Some d => readDigits s' (Some (10 * default 0 acc + d)%Z)
      | None => acc
      end
  | EmptyString => acc
  end.

(** The number value of a non-negative integer: the nearest double, ties
    to even. An integer below 2^53 is a double; above, the 53 leading bits
    are kept and the rest is rounded away. *)
Definition toDouble (z : Z) : Z :=
  if (z <? 2 ^ 53)%Z then z
  else
    let e := (Z.log2 z - 52)%Z in
    let q := Z.shiftr z e in
    let r := (z - Z.shiftl q e)%Z in
    let half := Z.shiftl 1 (e - 1) in
    let q' := if (half <? r)%Z || ((r =? half)%Z && Z.odd q)
              then (q + 1)%Z else q in
    Z.shiftl q' e.

(** [parseInt(s, 10)]: white space is skipped, a sign is read, then the
    longest run of decimal digits; the result is the double nearest to
    the signed integer they denote, an infinite value when that integer
    is beyond the doubles, and [NaN] when there is no digit. The digits
    are all taken into account. *)
Definition parseInt (s : string) : JsNumber :=
  let s := skipWhiteSpace s in
  let '(sign, digits) :=
    match s with
    | String "-" s' => ((-1)%Z, s')
    | String "+" s' => (1%Z, s')
    | _ => (1%Z, s)
    end in
  match readDigits digits None with
  | Some z =>
      let d := toDouble z in
      if (d <? 2 ^ 1024)%Z then Num (sign * d) else Infinity (sign <? 0)%Z
  | None => NaN
  end.

(** The rate input's [onChange], [value] being [e.target.value]. *)
Definition rateOnChange (email : EmailWithRate.t) (value : string)
  : M State unit :=
  handleUpdateEmailRate email (parseInt value).

(** A sending rate within the bounds of the rate input, 1 to 1440. *)
Definition inBounds (r : option JsNumber) : Prop :=
  exists z, r = Some (Num z) /\ (1 <= z <= 1440)%Z.

(** The campaign row an effect writes to the store, if it writes one. *)
Definition campaignWrite (e : Effect) : option CampaignRow.t :=
  match e with
  | Remote (InsertCampaign row) => Some row
  | Remote (UpdateCampaign _ row) => Some row
  | _ => None
  end.

(** The save ended in its [catch] block. *)
Definition saveFailed (tr : list Effect) : Prop :=
  Alert "Failed to save campaign. Please try again." ∈ tr.


End AppPage.

(** ** The Google SMTP settings tab *)

Module GoogleTab.

(** The component's variables; [googleEmails] is the list cached in the
    shared email context. *)
Record State := {
  googleEmails : list GoogleEmail.t;
  newEmail : string;
  newAppPassword : string;
  emailError : string;
  passwordError : string
}.

Definition setGoogleEmails (v : list GoogleEmail.t) : M State unit :=
  modify (fun s => {| googleEmails := v; newEmail := newEmail s;
                      newAppPassword := newAppPassword s;
                      emailError := emailError s;
                      passwordError := passwordError s |}).

Definition setNewEmail (v : string) : M State unit :=
  modify (fun s => {| googleEmails := googleEmails s; newEmail := v;
                      newAppPassword := newAppPassword s;
                      emailError := emailError s;
                      passwordError := passwordError s |}).

Definition setNewAppPassword (v : string) : M State unit :=
  modify (fun s => {| googleEmails := googleEmails s; newEmail := newEmail s;
                      newAppPassword := v;
                      emailError := emailError s;
                      passwordError := passwordError s |}).

Definition setEmailError (v : string) : M State unit :=
  modify (fun s => {| googleEmails := googleEmails s; newEmail := newEmail s;
                      newAppPassword := newAppPassword s;
                      emailError := v;
                      passwordError := passwordError s |}).

Definition setPasswordError (v : string) : M State unit :=
  modify (fun s => {| googleEmails := googleEmails s; newEmail := newEmail s;
                      newAppPassword := newAppPassword s;
                      emailError := emailError s;
                      passwordError := v |}).

(** The class [[^\s@]] on character codes below 256. *)
Definition isLocalChar (c : ascii) : bool :=
  let n := nat_of_ascii c in
  negb (Nat.leb 9 n && Nat.leb n 13 || Nat.eqb n 32 || Nat.eqb n 160
        || Nat.eqb n 64).

(** [s] is in [[^\s@]*@gmail\.com$]: local characters are consumed; the
    first character that is not one starts the literal, which must be all
    that is left. *)
Fixpoint afterLocalChar (s : string) : bool :=
  match s with
  | String c s' => if isLocalChar c then afterLocalChar s'
                   else String.eqb s "@gmail.com"
  | EmptyString => false
  end.

(** [email.match(/^[^\s@]+@gmail\.com$/)], as a truth value. *)
Definition validateEmail (email : string) : bool :=
  match email with
  | String c s' => isLocalChar c && afterLocalChar s'
  | EmptyString => false
  end.

(** The class [[a-zA-Z0-9]]. *)
Definition isAlnum (c : ascii) : bool :=
  let n := nat_of_ascii c in
  Nat.leb 97 n && Nat.leb n 122 || Nat.leb 65 n && Nat.leb n 90
  || Nat.leb 48 n && Nat.leb n 57.

Definition validateAppPassword (password : string) : bool :=
  Nat.eqb (String.length password) 16
  && (negb (String.eqb password "")
      && forallb isAlnum (list_ascii_of_string password)).

Definition handleAddGoogleEmail : M State unit :=
  st ← get;
  if negb (validateEmail (newEmail st)) then
    setEmailError "Please enter a valid Gmail address"
  else if negb (validateAppPassword (newAppPassword st)) then
    setPasswordError "App password must be 16 characters long"
  else if existsb (fun email => String.eqb (GoogleEmail.address email)
                                           (newEmail st))
                  (googleEmails st) then
    setEmailError "This email is already in the list"
  else
    try_catch
      (uid ← requireUser;
       r ← remote (InsertGoogleEmail uid (newEmail st) (newAppPassword st));
       match error r with
       | Some e =>
           if String.eqb (code e) "23505" then
             setEmailError "This email is already registered"
           else throw (StoreFailure e)
       | None =>
           setGoogleEmails
             (googleEmails st
              ++ [{| GoogleEmail.address := newEmail st;
                     GoogleEmail.appPassword := newAppPassword st;
                     GoogleEmail.testing := None |}]);;
           setNewEmail "";;
           setNewAppPassword "";;
           setEmailError "";;
           setPasswordError ""
       end)
      (fun _ =>
         console_error "Error adding Google SMTP email:";;
         alert "Failed to add email. Please try again.").

Definition handleRemoveGoogleEmail (address : string) : M State unit :=
  st ← get;
  try_catch
    (uid ← requireUser;
     r ← remote (DeleteGoogleEmail uid address);
     throwIfError r;;
     setGoogleEmails
       (List.filter (fun email => negb (String.eqb (GoogleEmail.address email)
                                                   address))
                    (googleEmails st)))
    (fun _ =>
       console_error "Error removing Google SMTP email:";;
       alert "Failed to remove email. Please try again.").

End GoogleTab.

(** ** Sample values *)

Module Sample.

Definition html1 : Template.t :=
  {| Template.id := "t1"; Template.name := "Welcome"; Template.format := "html" |}.
Definition html2 : Template.t :=
  {| Template.id := "t2"; Template.name := "Offer"; Template.format := "html" |}.
Definition docx1 : Template.t :=
  {| Template.id := "t3"; Template.name := "Flyer"; Template.format := "docx" |}.

Definition asBody (t : Template.t) : CampaignTemplate.t :=
  {| CampaignTemplate.template := t; CampaignTemplate.type := body |}.

Definition sender (a : string) (p : SmtpProvider) (r : Z) : EmailWithRate.t :=
  {| EmailWithRate.entry := {| EmailEntry.address := a; EmailEntry.smtpProvider := p |};
     EmailWithRate.sendingRate := Some (Num r) |}.

(** The campaign of the spec's example: Chicago, one subject line, one
    html template, one sender. *)
Definition chicago : Campaign.t :=
  {| Campaign.id := "c1"; Campaign.name := "Spring";
     Campaign.isActive := false; Campaign.city := "Chicago";
     Campaign.subjectLines := ["Hi"]; Campaign.daysTillClose := "NA";
     Campaign.templates := [asBody html1];
     Campaign.emails := [sender "a@gmail.com" gmail 1440];
     Campaign.lastModified := "2024-01-01T00:00:00.000Z" |}.

(** The same campaign as the store may return it with two body rows. *)
Definition twoBodies : Campaign.t :=
  {| Campaign.id := "c2"; Campaign.name := "Spring";
     Campaign.isActive := false; Campaign.city := "Chicago";
     Campaign.subjectLines := ["Hi"]; Campaign.daysTillClose := "NA";
     Campaign.templates := [asBody html1; asBody html2];
     Campaign.emails := [sender "a@gmail.com" gmail 1440];
     Campaign.lastModified := "2024-01-01T00:00:00.000Z" |}.

Definition ses (a : string) : SESEmail.t :=
  {| SESEmail.address := a; SESEmail.testing := None |}.

Definition google (a : string) : GoogleEmail.t :=
  {| GoogleEmail.address := a; GoogleEmail.appPassword := "abcdefgh12345678";
     GoogleEmail.testing := None |}.

(** A store that accepts every request. *)
Definition answer (r : Request) : Response :=
  match r with
  | InsertCampaign _ => {| data := CampaignData "c9"; error := None |}
  | SelectCampaigns _ => {| data := CampaignsData []; error := None |}
  | _ => {| data := NoData; error := None |}
  end.

Definition env : Env :=
  {| auth_user := Some "u1"; exec := answer;
     now := fun _ => "2024-02-02T00:00:00.000Z" |}.

(** The editor open on [chicago]. *)
Definition editing : AppPage.State :=
  {| AppPage.campaigns := [chicago]; AppPage.currentCampaign := Some chicago;
     AppPage.selectedTemplateId := "t2"; AppPage.isLoading := false |}.

(** The list view, with nothing open. *)
Definition browsing : AppPage.State :=
  {| AppPage.campaigns := [chicago; twoBodies]; AppPage.currentCampaign := None;
     AppPage.selectedTemplateId := ""; AppPage.isLoading := false |}.

(** The credential the draft [chicago] already sends from. *)
Definition aGmail : EmailEntry.t :=
  {| EmailEntry.address := "a@gmail.com"; EmailEntry.smtpProvider := gmail |}.




(** A store that reports a uniqueness violation. *)
Definition envTaken : Env :=
  {| auth_user := Some "u1";
     exec := fun _ => {| data := NoData; error := Some {| code := "23505" |} |};
     now := fun _ => "2024-02-02T00:00:00.000Z" |}.

(** The settings tab with [a@gmail.com] cached; the form holds the same
    address and a password that is too short. *)
Definition tabShort : GoogleTab.State :=
  {| GoogleTab.googleEmails := [google "a@gmail.com"];
     GoogleTab.newEmail := "a@gmail.com";
     GoogleTab.newAppPassword := "short";
     GoogleTab.emailError := ""; GoogleTab.passwordError := "" |}.

(** The same, the form holding a well-formed password. *)
Definition tabDuplicate : GoogleTab.State :=
  {| GoogleTab.googleEmails := [google "a@gmail.com"];
     GoogleTab.newEmail := "a@gmail.com";
     GoogleTab.newAppPassword := "abcdefgh12345678";
     GoogleTab.emailError := ""; GoogleTab.passwordError := "" |}.

(** The form holding an address that is not cached. *)
Definition tabFresh : GoogleTab.State :=
  {| GoogleTab.googleEmails := [google "a@gmail.com"];
     GoogleTab.newEmail := "b@gmail.com";
     GoogleTab.newAppPassword := "abcdefgh12345678";
     GoogleTab.emailError := ""; GoogleTab.passwordError := "" |}.

(** A store whose delete of template associations fails. *)
Definition answerNoDelete (r : Request) : Response :=
  match r with
  | DeleteCampaignTemplates _ =>
      {| data := NoData; error := Some {| code := "500" |} |}
  | _ => answer r
  end.

Definition envNoDelete : Env :=
  {| auth_user := Some "u1"; exec := answerNoDelete;
     now := fun _ => "2024-02-02T00:00:00.000Z" |}.

(** A campaign with a Gmail sender and an SES sender. *)
Definition mixed : Campaign.t :=
  {| Campaign.id := "c3"; Campaign.name := "Autumn";
     Campaign.isActive := true; Campaign.city := "Dallas";
     Campaign.subjectLines := ["Hello"]; Campaign.daysTillClose := "7";
     Campaign.templates := [asBody html1];
     Campaign.emails := [sender "a@gmail.com" gmail 1440;
                         sender "s@corp.com" amazon 100];
     Campaign.lastModified := "2024-01-03T00:00:00.000Z" |}.

(** The list view showing [mixed], which is active. *)
Definition listing : AppPage.State :=
  {| AppPage.campaigns := [mixed]; AppPage.currentCampaign := None;
     AppPage.selectedTemplateId := ""; AppPage.isLoading := false |}.

(** The templates of the template store. *)
Definition store : list Template.t := [html1; html2; docx1].

End Sample.

(** ** The rest of the draft editor

    The handlers of the page that remove one association, and the two
    that edit the subject lines. They send requests of their own
    ([.delete()] narrowed to one row) and one of them writes to the
    document, so they run in [MX]: [M] with these further effects. *)

Module Editor.
Import AppPage.

(** [.delete().eq('campaign_id', ..).eq('template_id', ..)] and
    [.delete().eq('campaign_id', ..).eq('email_address', ..)] *)
Inductive RowRequest :=
| DeleteCampaignTemplate (campaign_id template_id : string)
| DeleteCampaignEmail (campaign_id email_address : string).

(** The environment of [M], and the store's answers to the requests for
    one row. *)
Record XEnv := { base : Env; answerRow : RowRequest -> Response }.

(** An effect of [M], a request for one row, or [element.value = value]
    on the element of the document with the given id. *)
Inductive XEffect :=
| Base (e : Effect)
| RemoteRow (r : RowRequest)
| DomWrite (element value : string).

Definition MX (S A : Type) : Type :=
  XEnv -> S -> list XEffect -> (Exn + A) * S * list XEffect.

#[global] Instance MX_ret {S} : MRet (MX S) :=
  fun A (a : A) _ s tr => (inr a, s, tr).

#[global] Instance MX_bind {S} : MBind (MX S) :=
  fun A B (k : A -> MX S B) (m : MX S A) env s tr =>
    match m env s tr with
    | (inr a, s', tr') => k a env s' tr'
    | (inl e, s', tr') => (inl e, s', tr')
    end.

(** A computation of [M], run in place. *)
Definition lift {S A} (m : M S A) : MX S A :=
  fun env s tr =>
    match m (base env) s [] with
    | (r, s', tr0) => (r, s', tr ++ (Base <$> tr0))
    end.

(** [try { m } catch (error) { h }] *)
Definition try_catchX {S A} (m : MX S A) (h : Exn -> MX S A) : MX S A :=
  fun env s tr =>
    match m env s tr with
    | (inl e, s', tr') => h e env s' tr'
    | r => r
    end.

Definition remoteRow {S} (r : RowRequest) : MX S Response :=
  fun env s tr => (inr (answerRow env r), s, tr ++ [RemoteRow r]).

Definition domWrite {S} (element value : string) : MX S unit :=
  fun _ s tr => (inr tt, s, tr ++ [DomWrite element value]).

Definition runX {S A} (m : MX S A) (env : XEnv) (s : S)
  : (Exn + A) * S * list XEffect :=
  m env s [].

Definition stateX {S A} (r : (Exn + A) * S * list XEffect) : S := snd (fst r).
Definition traceX {S A} (r : (Exn + A) * S * list XEffect) : list XEffect :=
  snd r.

(** [{ subjectLines: ls }] *)
Definition of_subjectLines (ls : list string) : Updates.t :=
  {| Updates.name := None; Updates.city := None;
     Updates.subjectLines := Some ls; Updates.daysTillClose := None;
     Updates.templates := None; Updates.emails := None |}.

Definition handleRemoveTemplate (templateId : string) : MX State unit :=
  st ← lift get;
  match currentCampaign st with
  | None => mret tt
  | Some cur =>
    try_catchX
      ((if negb (String.eqb (Campaign.id cur) "") then
          r ← remoteRow (DeleteCampaignTemplate (Campaign.id cur) templateId);
          lift (throwIfError r)
        else mret tt);;
       lift (handleUpdateCampaign
               (Updates.of_templates
                  (List.filter
                     (fun t => negb (String.eqb
                                       (Template.id (CampaignTemplate.template t))
                                       templateId))
                     (Campaign.templates cur)))))
      (fun _ =>
         lift (console_error "Error removing template:");;
         lift (alert "Failed to remove template. Please try again."))
  end.

Definition handleRemoveEmail (email : EmailWithRate.t) : MX State unit :=
  st ← lift get;
  match currentCampaign st with
  | None => mret tt
  | Some cur =>
    try_catchX
      ((if negb (String.eqb (Campaign.id cur) "") then
          r ← remoteRow (DeleteCampaignEmail (Campaign.id cur)
                                             (EmailWithRate.address email));
          lift (throwIfError r)
        else mret tt);;
       lift (handleUpdateCampaign
               (Updates.of_emails
                  (List.filter
                     (fun e : EmailWithRate.t =>
                        negb (String.eqb (EmailWithRate.address e)
                                         (EmailWithRate.address email)))
                     (Campaign.emails cur)))))
      (fun _ =>
         lift (console_error "Error removing email:");;
         lift (alert "Failed to remove email. Please try again."))
  end.

(** White space is dropped from the end: a white-space character is
    kept when something is left after it. *)
Fixpoint trimEnd (s : string) : string :=
  match s with
  | EmptyString => EmptyString
  | String c s' =>
      let t := trimEnd s' in
      if isStrWhiteSpace c && String.eqb t "" then EmptyString
      else String c t
  end.

(** [s.trim()] *)
Definition trim (s : string) : string := trimEnd (skipWhiteSpace s).

(** [input] is the value of the element [newSubjectLine], [None] when
    the document has no such element. *)
Definition handleAddSubjectLine (input : option string) : MX State unit :=
  st ← lift get;
  match currentCampaign st with
  | None => mret tt
  | Some cur =>
    match input with
    | None => mret tt
    | Some value =>
      if String.eqb (trim value) "" then mret tt
      else
        lift (handleUpdateCampaign
                (of_subjectLines (Campaign.subjectLines cur ++ [trim value])));;
        domWrite "newSubjectLine" ""
    end
  end.

(** [newSubjectLines.splice(index, 1)] on a copy of the lines, [index]
    being a position of the rendered list. *)
Definition handleRemoveSubjectLine (index : nat) : M State unit :=
  st ← get;
  match currentCampaign st with
  | None => ret tt
  | Some cur =>
      handleUpdateCampaign
        (of_subjectLines (delete index (Campaign.subjectLines cur)))
  end.

(** The templates the template select offers for a draft. *)
Definition templateOptions (templates : list Template.t) (cur : Campaign.t)
  : list Template.t :=
  List.filter
    (fun t =>
       if existsb (fun ct => String.eqb
                               (Template.id (CampaignTemplate.template ct))
                               (Template.id t))
                  (Campaign.templates cur)
       then false
       else if String.eqb (Template.format t) "html"
               && existsb isBody (Campaign.templates cur)
       then false
       else true)
    templates.

(** What the editor keeps true of a draft's templates: at most one has
    the body role, no template occurs twice, and each has the role of its
    format. *)
Definition templatesOk (c : Campaign.t) : Prop :=
  bodyCount c <= 1
  /\ NoDup ((fun t => Template.id (CampaignTemplate.template t))
              <$> Campaign.templates c)
  /\ Forall (fun t => CampaignTemplate.type t
                      = templateTypeOf
                          (Template.format (CampaignTemplate.template t)))
            (Campaign.templates c).

(** No address occurs twice among a draft's senders. *)
Definition sendersOk (c : Campaign.t) : Prop :=
  NoDup (EmailWithRate.address <$> Campaign.emails c).

(** No subject line is empty or has white space around it. *)
Definition subjectLinesOk (c : Campaign.t) : Prop :=
  Forall (fun l => l <> "" /\ trim l = l) (Campaign.subjectLines c).

End Editor.

(** ** The rest of the list view and of the Google tab *)

Module More.
Import AppPage.

(** Every active campaign of the list passes the validator. *)
Definition activeValid (cs : list Campaign.t) : Prop :=
  Forall (fun c => Campaign.isActive c = true ->
                   valid (validateCampaign c) = true) cs.

(** [e.address === email.address ? { ...e, testing: flag } : e] over the
    cached list. *)
Definition markTesting (address : string) (flag : bool)
    (prev : list GoogleEmail.t) : list GoogleEmail.t :=
  (fun e => if String.eqb (GoogleEmail.address e) address
            then {| GoogleEmail.address := GoogleEmail.address e;
                    GoogleEmail.appPassword := GoogleEmail.appPassword e;
                    GoogleEmail.testing := Some flag |}
            else e) <$> prev.

(** [setGoogleEmails(prev => f(prev))] *)
Definition updateGoogleEmails (f : list GoogleEmail.t -> list GoogleEmail.t)
  : M GoogleTab.State unit :=
  st ← get;
  GoogleTab.setGoogleEmails (f (GoogleTab.googleEmails st)).

(** The awaited timer of two seconds does not reject; the handler goes on
    when it fires. *)
Definition handleTestEmail (email : GoogleEmail.t) : M GoogleTab.State unit :=
  updateGoogleEmails (markTesting (GoogleEmail.address email) true);;
  try_catch
    (updateGoogleEmails (markTesting (GoogleEmail.address email) false);;
     alert "Test email sent successfully!")
    (fun _ =>
       updateGoogleEmails (markTesting (GoogleEmail.address email) false);;
       alert "Failed to send test email. Please try again.").

(** The effect is a request that deletes or inserts associations of a
    campaign. *)
Definition touchesAssociations (e : Effect) : bool :=
  match e with
  | Remote (DeleteCampaignTemplates _)
  | Remote (DeleteCampaignEmails _)
  | Remote (InsertCampaignTemplates _)
  | Remote (InsertCampaignEmails _) => true
  | _ => false
  end.

(** The request by which a save writes the campaign row. *)
Definition rowWrite (uid name t : string) (cur : Campaign.t) : Request :=
  if String.eqb (Campaign.id cur) ""
  then InsertCampaign (insertRow uid name t cur)
  else UpdateCampaign (Campaign.id cur) (updateRow name t cur).

(** No address occurs twice in the cached list. *)
Definition cacheOk (st : GoogleTab.State) : Prop :=
  NoDup (GoogleEmail.address <$> GoogleTab.googleEmails st).

End More.

(** ** Further sample values *)

Module Fixture.

(** A store that accepts every request, also those for one row. *)
Definition xenv : Editor.XEnv :=
  {| Editor.base := Sample.env;
     Editor.answerRow := fun _ => {| data := NoData; error := None |} |}.

(** The editor open on a draft that was never saved. *)
Definition unsaved : Campaign.t :=
  {| Campaign.id := ""; Campaign.name := "New Campaign";
     Campaign.isActive := false; Campaign.city := "New York";
     Campaign.subjectLines := ["Hi"]; Campaign.daysTillClose := "NA";
     Campaign.templates := [Sample.asBody Sample.html1];
     Campaign.emails := [Sample.sender "a@gmail.com" gmail 1440];
     Campaign.lastModified := "2024-01-01T00:00:00.000Z" |}.

Definition drafting : AppPage.State :=
  {| AppPage.campaigns := []; AppPage.currentCampaign := Some unsaved;
     AppPage.selectedTemplateId := "t3"; AppPage.isLoading := false |}.

(** A campaign without senders, not active. *)
Definition noSenders : Campaign.t :=
  Campaign.with_emails Sample.chicago [].

Definition listed : AppPage.State :=
  {| AppPage.campaigns := [noSenders; Sample.twoBodies];
     AppPage.currentCampaign := None;
     AppPage.selectedTemplateId := ""; AppPage.isLoading := true |}.

End Fixture.

(** * Properties *)

Import AppPage.

(** ** The validator *)

Lemma existsb_isBody_count (ts : list CampaignTemplate.t) :
  existsb isBody ts = true <-> 1 <= length (List.filter isBody ts).
Proof.
  induction ts as [|t ts IH]; simpl.
  - split; [discriminate | lia].
  - destruct (isBody t); simpl; [split; [lia | reflexivity] | exact IH].
Qed.

Lemma length_eqb_0 {A} (l : list A) :
  Nat.eqb (length l) 0 = true <-> l = [].
Proof. destruct l; simpl; split; congruence. Qed.

Lemma length_eqb_0_false {A} (l : list A) :
  l <> [] -> Nat.eqb (length l) 0 = false.
Proof. destruct l; simpl; congruence. Qed.

Lemma validateCampaign_valid_iff (c : Campaign.t) :
  valid (validateCampaign c) = true <->
  Campaign.emails c <> [] /\ Campaign.city c <> ""
  /\ Campaign.subjectLines c <> [] /\ 1 <= bodyCount c.
Proof.
  unfold validateCampaign, bodyCount.
  destruct (Nat.eqb (length (Campaign.emails c)) 0) eqn:He.
  { apply length_eqb_0 in He. simpl. split; [discriminate | tauto]. }
  destruct (String.eqb_spec (Campaign.city c) "") as [Hc|Hc].
  { simpl. split; [discriminate | tauto]. }
  destruct (Nat.eqb (length (Campaign.subjectLines c)) 0) eqn:Hs.
  { apply length_eqb_0 in Hs. simpl. split; [discriminate | tauto]. }
  assert (Campaign.emails c <> []) by (rewrite <- length_eqb_0; congruence).
  assert (Campaign.subjectLines c <> []) by (rewrite <- length_eqb_0; congruence).
  destruct (existsb isBody (Campaign.templates c)) eqn:Hb; simpl.
  - apply existsb_isBody_count in Hb. tauto.
  - split; [discriminate |].
    intros (_ & _ & _ & Hn). apply existsb_isBody_count in Hn. congruence.
Qed.

(** C1, as stated, at a campaign with two body-role templates: the
    validator accepts it although it does not have exactly one. *)
Lemma validateCampaign_two_bodies_accepted :
  ~ (valid (validateCampaign Sample.twoBodies) = true <->
     Campaign.emails Sample.twoBodies <> []
     /\ Campaign.city Sample.twoBodies <> ""
     /\ Campaign.subjectLines Sample.twoBodies <> []
     /\ bodyCount Sample.twoBodies = 1).
Proof.
  intros [H _]. specialize (H eq_refl).
  destruct H as (_ & _ & _ & H). vm_compute in H. discriminate.
Qed.

(** C1 (amended): [validateCampaign c] is valid exactly when [c] has a
    sender email, a non-empty city, a subject line and at least one
    body-role template; otherwise its reason is that of the first of these
    four conditions, in this order, that fails. *)
Theorem validateCampaign_first_failure (c : Campaign.t) :
  (validateCampaign c = {| valid := true; reason := None |} <->
     Campaign.emails c <> [] /\ Campaign.city c <> ""
     /\ Campaign.subjectLines c <> [] /\ 1 <= bodyCount c)
  /\ (Campaign.emails c = [] ->
      validateCampaign c = invalid "At least one sender email is required")
  /\ (Campaign.emails c <> [] -> Campaign.city c = "" ->
      validateCampaign c = invalid "A target city must be selected")
  /\ (Campaign.emails c <> [] -> Campaign.city c <> "" ->
      Campaign.subjectLines c = [] ->
      validateCampaign c = invalid "At least one subject line is required")
  /\ (Campaign.emails c <> [] -> Campaign.city c <> "" ->
      Campaign.subjectLines c <> [] -> bodyCount c = 0 ->
      validateCampaign c = invalid "A body template is required").
Proof.
  split.
  { rewrite <- validateCampaign_valid_iff. unfold validateCampaign, invalid.
    repeat match goal with |- context [if ?b then _ else _] => destruct b end;
      simpl; split; congruence. }
  unfold validateCampaign, bodyCount.
  repeat split.
  - intros ->. reflexivity.
  - intros He ->. rewrite (length_eqb_0_false _ He). reflexivity.
  - intros He Hc ->. rewrite (length_eqb_0_false _ He).
    destruct (String.eqb_spec (Campaign.city c) ""); [contradiction | reflexivity].
  - intros He Hc Hs Hb. rewrite (length_eqb_0_false _ He).
    destruct (String.eqb_spec (Campaign.city c) ""); [contradiction |].
    rewrite (length_eqb_0_false _ Hs).
    destruct (existsb isBody (Campaign.templates c)) eqn:E3; [|reflexivity].
    apply existsb_isBody_count in E3. lia.
Qed.

(** ** Credential reconciliation *)

Section Reconciliation.
Variables (sesEmails : list SESEmail.t) (googleEmails : list GoogleEmail.t).

Lemma elem_of_allEmailAddresses (a : string) :
  a ∈ allEmailAddresses sesEmails googleEmails <-> heldBy sesEmails googleEmails a.
Proof.
  unfold allEmailAddresses, availableEmails, heldBy.
  rewrite elem_of_list_to_set, list_elem_of_fmap.
  split.
  - intros (x & -> & Hx). apply elem_of_app in Hx as [Hx|Hx];
      apply list_elem_of_fmap in Hx as (y & -> & Hy); [left | right]; eauto.
  - intros [(s & Hs & <-)|(g & Hg & <-)].
    + eexists. split; [| apply elem_of_app; left;
                         apply list_elem_of_fmap; eauto]. reflexivity.
    + eexists. split; [| apply elem_of_app; right;
                         apply list_elem_of_fmap; eauto]. reflexivity.
Qed.

Lemma reconcileCampaign_emails (c : Campaign.t) (e : EmailWithRate.t) :
  e ∈ Campaign.emails (reconcileCampaign sesEmails googleEmails c)
  <-> heldBy sesEmails googleEmails (EmailWithRate.address e) /\ e ∈ Campaign.emails c.
Proof.
  unfold reconcileCampaign. simpl.
  rewrite list_elem_of_filter, elem_of_allEmailAddresses. reflexivity.
Qed.

(** C2: when the credential lists change, the reconciliation effect sends
    nothing to the store and leaves the draft alone; every campaign of the
    list keeps its place, loses exactly the sender entries whose address no
    credential holds any more, keeps the others in their order, and keeps
    all its other fields. *)
Theorem reconcileEffect_frame (env : Env) (st : State) (i : nat)
    (c : Campaign.t) :
  campaigns st !! i = Some c ->
  let r := run (reconcileEffect sesEmails googleEmails) env st in
  trace_of r = []
  /\ currentCampaign (state_of r) = currentCampaign st
  /\ length (campaigns (state_of r)) = length (campaigns st)
  /\ exists c', campaigns (state_of r) !! i = Some c'
     /\ (exists removed,
           Campaign.emails c ≡ₚ Campaign.emails c' ++ removed
           /\ Forall (fun e : EmailWithRate.t =>
                        ~ heldBy sesEmails googleEmails (EmailWithRate.address e)) removed)
     /\ Forall (fun e : EmailWithRate.t => heldBy sesEmails googleEmails (EmailWithRate.address e))
               (Campaign.emails c')
     /\ sublist (Campaign.emails c') (Campaign.emails c)
     /\ Campaign.id c' = Campaign.id c
     /\ Campaign.name c' = Campaign.name c
     /\ Campaign.isActive c' = Campaign.isActive c
     /\ Campaign.city c' = Campaign.city c
     /\ Campaign.subjectLines c' = Campaign.subjectLines c
     /\ Campaign.daysTillClose c' = Campaign.daysTillClose c
     /\ Campaign.templates c' = Campaign.templates c
     /\ Campaign.lastModified c' = Campaign.lastModified c.
Proof.
  intros Hi r. subst r. cbn.
  split; [reflexivity|]. split; [reflexivity|].
  unfold reconcile. split; [apply length_fmap|].
  exists (reconcileCampaign sesEmails googleEmails c).
  split; [rewrite list_lookup_fmap, Hi; reflexivity|].
  unfold reconcileCampaign; simpl.
  set (P := fun email : EmailWithRate.t =>
              EmailWithRate.address email
                ∈ allEmailAddresses sesEmails googleEmails).
  split.
  { exists (filter (fun x => ~ P x) (Campaign.emails c)). split.
    - symmetry. apply filter_app_complement.
    - apply Forall_forall. intros e He.
      apply list_elem_of_filter in He as [He _].
      unfold P in He. rewrite elem_of_allEmailAddresses in He. exact He. }
  split.
  { apply Forall_forall. intros e He.
    apply list_elem_of_filter in He as [He _].
    unfold P in He. rewrite elem_of_allEmailAddresses in He. exact He. }
  split; [apply sublist_filter|].
  repeat split; reflexivity.
Qed.

(** C10: reconciliation looks at the address only: a sender entry of a
    campaign survives exactly when some credential, SES or Google, has its
    address, whatever the entry's own provider; so an entry whose address
    an SES credential holds survives any change of the Google list, and
    the other way round. *)
Theorem reconcile_by_address_only (c : Campaign.t) (e : EmailWithRate.t) :
  e ∈ Campaign.emails c ->
  (e ∈ Campaign.emails (reconcileCampaign sesEmails googleEmails c)
   <-> heldBy sesEmails googleEmails (EmailWithRate.address e))
  /\ ((exists s, s ∈ sesEmails
                 /\ SESEmail.address s = EmailWithRate.address e) ->
      forall googleEmails',
        e ∈ Campaign.emails (reconcileCampaign sesEmails googleEmails' c))
  /\ ((exists g, g ∈ googleEmails
                 /\ GoogleEmail.address g = EmailWithRate.address e) ->
      forall sesEmails',
        e ∈ Campaign.emails (reconcileCampaign sesEmails' googleEmails c)).
Proof.
  intros He. split; [|split].
  - rewrite reconcileCampaign_emails. tauto.
  - intros Hs g'. unfold reconcileCampaign; simpl.
    apply list_elem_of_filter. split; [|exact He].
    unfold allEmailAddresses, availableEmails.
    destruct Hs as (s & Hs & Ha).
    rewrite elem_of_list_to_set, list_elem_of_fmap.
    eexists. split; [| apply elem_of_app; left;
                       apply list_elem_of_fmap; eauto]. simpl. auto.
  - intros Hg s'. unfold reconcileCampaign; simpl.
    apply list_elem_of_filter. split; [|exact He].
    unfold allEmailAddresses, availableEmails.
    destruct Hg as (g & Hg & Ha).
    rewrite elem_of_list_to_set, list_elem_of_fmap.
    eexists. split; [| apply elem_of_app; right;
                       apply list_elem_of_fmap; eauto]. simpl. auto.
Qed.

End Reconciliation.

(** ** The draft editor *)

(** One step of a handler: the operations of [M] are unfolded and the
    redexes they leave are reduced. *)
Ltac step_in H :=
  cbv beta iota zeta delta
    [mbind M_bind mret M_ret ret get modify emit alert
     console_error remote getUser newDate readings throw try_catch
     try_finally requireUser throwIfError
     setCampaigns setCurrentCampaign setSelectedTemplateId setIsLoading
     GoogleTab.setGoogleEmails GoogleTab.setNewEmail
     GoogleTab.setNewAppPassword GoogleTab.setEmailError
     GoogleTab.setPasswordError] in H.

Ltac step :=
  cbv beta iota zeta delta
    [mbind M_bind mret M_ret ret get modify emit alert
     console_error remote getUser newDate readings throw try_catch
     try_finally requireUser throwIfError
     setCampaigns setCurrentCampaign setSelectedTemplateId setIsLoading
     GoogleTab.setGoogleEmails GoogleTab.setNewEmail
     GoogleTab.setNewAppPassword GoogleTab.setEmailError
     GoogleTab.setPasswordError].

Lemma existsb_elem_of {A} (f : A -> bool) (l : list A) :
  existsb f l = true <-> exists x, x ∈ l /\ f x = true.
Proof.
  rewrite existsb_exists. split; intros (x & H1 & H2); exists x;
    (split; [apply list_elem_of_In; exact H1 | exact H2]).
Qed.

Lemma templateTypeOf_body (format : string) :
  templateTypeOf format = body <-> format = "html".
Proof.
  unfold templateTypeOf. destruct (String.eqb_spec format "html");
    split; congruence.
Qed.

(** C3: with a draft open and a template chosen in the select, adding is
    refused with an alert and an unchanged state when the template's format
    is [html] and the draft has a body-role template, and when the draft
    already has the template; otherwise the template is appended with the
    role its format gives it, body for [html] and attachment for any other
    format. *)
Theorem handleAddTemplate_rejections (templates : list Template.t)
    (env : Env) (st : State) (cur : Campaign.t) (template : Template.t) :
  currentCampaign st = Some cur ->
  selectedTemplateId st <> "" ->
  List.find (fun t => String.eqb (Template.id t) (selectedTemplateId st))
            templates = Some template ->
  let r := run (handleAddTemplate templates) env st in
  let present :=
    exists t, t ∈ Campaign.templates cur
      /\ Template.id (CampaignTemplate.template t) = Template.id template in
  let hasBody :=
    exists t, t ∈ Campaign.templates cur /\ CampaignTemplate.type t = body in
  (Template.format template = "html" -> hasBody ->
     exists message, r = (inr tt, st, [Alert message]))
  /\ (present ->
        r = (inr tt, st,
             [Alert "This template has already been added to the campaign."]))
  /\ (forall format, templateTypeOf format = body <-> format = "html")
  /\ (forall format, format <> "html" -> templateTypeOf format = attachment)
  /\ (~ present -> ~ (Template.format template = "html" /\ hasBody) ->
        result_of r = inr tt /\ trace_of r = []
        /\ campaigns (state_of r) = campaigns st
        /\ exists cur', currentCampaign (state_of r) = Some cur'
           /\ Campaign.templates cur' =
              Campaign.templates cur
              ++ [{| CampaignTemplate.template := template;
                     CampaignTemplate.type :=
                       templateTypeOf (Template.format template) |}]).
Proof.
  intros Hcur Hsel Hfind r present hasBody.
  assert (Hr : r = run (handleAddTemplate templates) env st) by reflexivity.
  clearbody r. unfold run, handleAddTemplate in Hr. step_in Hr.
  destruct (String.eqb_spec (selectedTemplateId st) "") as [E|_];
    [contradiction|].
  rewrite Hcur, Hfind in Hr.
  set (dup := existsb _ (Campaign.templates cur)) in Hr.
  assert (Hdup : dup = true <-> present).
  { unfold dup, present. rewrite existsb_elem_of.
    split; intros (t & Ht & E); exists t; (split; [exact Ht|]).
    - apply String.eqb_eq in E. exact E.
    - apply String.eqb_eq. exact E. }
  assert (Hbody : existsb isBody (Campaign.templates cur) = true <-> hasBody).
  { unfold hasBody. rewrite existsb_elem_of.
    split; intros (t & Ht & E); exists t; (split; [exact Ht|]).
    - unfold isBody in E. apply bool_decide_eq_true in E. exact E.
    - unfold isBody. apply bool_decide_eq_true. exact E. }
  clearbody dup. split; [|split; [|split; [|split]]].
  - intros Hf Hb. apply Hbody in Hb.
    destruct dup; [subst r; eexists; reflexivity|].
    apply templateTypeOf_body in Hf. rewrite Hf, Hb in Hr. cbn in Hr.
    subst r. eexists; reflexivity.
  - intros Hp. apply Hdup in Hp. subst dup. exact Hr.
  - apply templateTypeOf_body.
  - intros f Hf. unfold templateTypeOf.
    destruct (String.eqb_spec f "html"); congruence.
  - intros Hnp Hnb.
    destruct dup; [exfalso; apply Hnp, Hdup; reflexivity|].
    destruct (bool_decide (templateTypeOf (Template.format template) = body)
              && existsb isBody (Campaign.templates cur)) eqn:E.
    { exfalso. apply Hnb. apply andb_true_iff in E as [E1 E2].
      apply bool_decide_eq_true in E1.
      split; [apply templateTypeOf_body, E1 | apply Hbody, E2]. }
    unfold handleUpdateCampaign in Hr. step_in Hr. rewrite Hcur in Hr.
    step_in Hr. subst r. cbn.
    repeat split. eexists. split; reflexivity.
Qed.

Lemma handleAddEmail_run (env : Env) (st : State) (cur : Campaign.t)
    (email : EmailEntry.t) :
  currentCampaign st = Some cur ->
  run (handleAddEmail email) env st =
  (inr tt,
   {| campaigns := campaigns st;
      currentCampaign :=
        Some (applyUpdates cur
                (Updates.of_emails
                   (Campaign.emails cur
                    ++ [{| EmailWithRate.entry := email;
                           EmailWithRate.sendingRate := Some (Num 1440) |}]))
                (now env 0));
      selectedTemplateId := selectedTemplateId st;
      isLoading := isLoading st |},
   []).
Proof.
  intros Hcur. unfold run, handleAddEmail. step. rewrite Hcur.
  unfold handleUpdateCampaign. step. rewrite Hcur. reflexivity.
Qed.

Lemma senderOptions_spec (sesEmails : list SESEmail.t)
    (googleEmails : list GoogleEmail.t) (cur : Campaign.t) (o : EmailEntry.t) :
  o ∈ senderOptions sesEmails googleEmails cur <->
  o ∈ availableEmails sesEmails googleEmails
  /\ ~ exists x : EmailWithRate.t,
         x ∈ Campaign.emails cur
         /\ EmailWithRate.address x = EmailEntry.address o.
Proof.
  unfold senderOptions.
  rewrite list_elem_of_In, filter_In, <- list_elem_of_In, negb_true_iff.
  rewrite <- not_true_iff_false, existsb_elem_of.
  split; intros [H1 H2]; (split; [exact H1|]); intros (x & Hx & E);
    apply H2; exists x; (split; [exact Hx|]).
  - apply String.eqb_eq. exact E.
  - apply String.eqb_eq in E. exact E.
Qed.




Lemma handleUpdateEmailRate_run (env : Env) (st : State) (cur : Campaign.t)
    (email : EmailWithRate.t) (rate : JsNumber) :
  currentCampaign st = Some cur ->
  run (handleUpdateEmailRate email rate) env st =
  (inr tt,
   {| campaigns := campaigns st;
      currentCampaign :=
        Some (applyUpdates cur
                (Updates.of_emails
                   ((fun e : EmailWithRate.t =>
                       if String.eqb (EmailWithRate.address e)
                                     (EmailWithRate.address email)
                       then {| EmailWithRate.entry := EmailWithRate.entry e;
                               EmailWithRate.sendingRate := Some rate |}
                       else e)
                      <$> Campaign.emails cur))
                (now env 0));
      selectedTemplateId := selectedTemplateId st;
      isLoading := isLoading st |},
   []).
Proof.
  intros Hcur. unfold run, handleUpdateEmailRate. step. rewrite Hcur.
  unfold handleUpdateCampaign. step. rewrite Hcur. reflexivity.
Qed.

(** The rate update is local and touches the rate only: nothing is sent to
    the store, the list of campaigns is as before, and the draft's sender
    entries keep their number, order, address and provider; an entry with
    another address is as it was, an entry with the address has the new
    rate. *)
Lemma handleUpdateEmailRate_frame (env : Env) (st : State) (cur : Campaign.t)
    (email : EmailWithRate.t) (rate : JsNumber) :
  currentCampaign st = Some cur ->
  let r := run (handleUpdateEmailRate email rate) env st in
  trace_of r = [] /\ campaigns (state_of r) = campaigns st
  /\ exists cur', currentCampaign (state_of r) = Some cur'
     /\ Campaign.templates cur' = Campaign.templates cur
     /\ Campaign.subjectLines cur' = Campaign.subjectLines cur
     /\ length (Campaign.emails cur') = length (Campaign.emails cur)
     /\ forall i e, Campaign.emails cur !! i = Some e ->
          exists e', Campaign.emails cur' !! i = Some e'
            /\ EmailWithRate.entry e' = EmailWithRate.entry e
            /\ (EmailWithRate.address e <> EmailWithRate.address email ->
                e' = e)
            /\ (EmailWithRate.address e = EmailWithRate.address email ->
                EmailWithRate.sendingRate e' = Some rate).
Proof.
  intros Hcur. rewrite (handleUpdateEmailRate_run env st cur email rate Hcur).
  cbn. repeat split. eexists. split; [reflexivity|]. cbn.
  repeat split.
  - apply length_fmap.
  - intros i e Hi.
    rewrite list_lookup_fmap, Hi. cbn.
    eexists. split; [reflexivity|].
    destruct (String.eqb_spec (EmailWithRate.address e)
                              (EmailWithRate.address email));
      cbn; repeat split; congruence.
Qed.

(** C5, at the draft [chicago] when 5000 is typed into the rate input of
    its sender: the entry's rate becomes 5000, beyond the input's maximum
    of 1440, and this is the rate a later save writes to the store. *)
Theorem rateOnChange_above_maximum :
  parseInt "5000" = Num 5000
  /\ exists e cur',
       currentCampaign
         (state_of (run (rateOnChange (Sample.sender "a@gmail.com" gmail 1440)
                                      "5000")
                        Sample.env Sample.editing)) = Some cur'
       /\ Campaign.emails cur' = [e]
       /\ EmailWithRate.sendingRate e = Some (Num 5000)
       /\ ~ inBounds (EmailWithRate.sendingRate e)
       /\ map CampaignEmailRow.sending_rate (emailRows "c1" "t" cur')
          = [Num 5000].
Proof.
  split; [reflexivity|].
  eexists. eexists. split; [vm_compute; reflexivity|].
  split; [reflexivity|]. split; [reflexivity|]. split; [|reflexivity].
  intros (z & Hz & Hb). cbn in Hz. injection Hz as <-. lia.
Qed.

(** ** The list view *)

(** C7: a click on a campaign of the list, outside its toggle and delete
    button, is answered with an alert and changes nothing when the campaign
    is active, so that the editor stays without a draft; it makes the
    campaign the current draft, leaving the list alone, when the campaign
    is not active. *)
Theorem handleCampaignClick_gate (env : Env) (st : State)
    (campaign : Campaign.t) :
  let r := run (handleCampaignClick false campaign) env st in
  (Campaign.isActive campaign = true ->
     r = (inr tt, st,
          [Alert "Cannot edit an active campaign. Please deactivate it first."])
     /\ (currentCampaign st = None -> currentCampaign (state_of r) = None))
  /\ (Campaign.isActive campaign = false ->
        result_of r = inr tt /\ trace_of r = []
        /\ currentCampaign (state_of r) = Some campaign
        /\ campaigns (state_of r) = campaigns st).
Proof.
  unfold run, handleCampaignClick. cbn beta iota zeta.
  split; intros ->; cbn; repeat split. intros H; exact H.
Qed.

(** ** Saving *)

(** A case analysis on the next answer the handler waits for: the
    innermost scrutinee that is stuck. *)
Ltac case_step :=
  match goal with
  | |- context [match ?x with _ => _ end] =>
      lazymatch x with
      | context [match _ with _ => _ end] => fail
      | _ => destruct x eqn:?
      end
  end; cbn beta iota.

Ltac run_save :=
  unfold run, handleSaveCampaign, writeCampaignRow, fetchCampaigns; step.

Ltac in_list :=
  repeat first [apply list_elem_of_here | apply list_elem_of_further].

Ltac all_writes_inactive :=
  repeat (constructor; [cbn; intros; simplify_eq; reflexivity|]);
  constructor.

(** C9: whatever the draft's own flag, every campaign row a save sends to
    the store, inserted or updated, has [is_active] false; and a save that
    does not end in its [catch] block has sent one: an insert for a draft
    without id, an update of the draft's row otherwise. *)
Theorem handleSaveCampaign_writes_inactive (env : Env) (st : State)
    (cur : Campaign.t) (name : string) :
  currentCampaign st = Some cur ->
  let r := run (handleSaveCampaign name) env st in
  Forall (fun e => forall row, campaignWrite e = Some row ->
                     CampaignRow.is_active row = false) (trace_of r)
  /\ (~ saveFailed (trace_of r) ->
      exists row, CampaignRow.is_active row = false
        /\ CampaignRow.name row = name
        /\ (Campaign.id cur = "" -> Remote (InsertCampaign row) ∈ trace_of r)
        /\ (Campaign.id cur <> "" ->
            Remote (UpdateCampaign (Campaign.id cur) row) ∈ trace_of r)).
Proof.
  intros Hcur r. subst r. run_save. rewrite Hcur. unfold saveFailed.
  destruct (auth_user env) as [uid|] eqn:Hu; cbn beta iota.
  2:{ cbn. split; [all_writes_inactive|].
      intros H. exfalso. apply H. in_list. }
  destruct (String.eqb_spec (Campaign.id cur) "") as [Hid|Hid]; cbn beta iota.
  - repeat case_step; cbn; (split; [all_writes_inactive|]); intros H;
      first [ exfalso; apply H; solve [in_list]
            | exists (insertRow uid name (now env 0) cur);
              (split; [reflexivity|]); (split; [reflexivity|]);
              (split; [intros _; solve [in_list] | intros; contradiction]) ].
  - repeat case_step; cbn; (split; [all_writes_inactive|]); intros H;
      first [ exfalso; apply H; solve [in_list]
            | exists (updateRow name (now env 0) cur);
              (split; [reflexivity|]); (split; [reflexivity|]);
              (split; [intros; contradiction | intros _; solve [in_list]]) ].
Qed.

(** ** Failing remote calls *)

Ltac split_mem He :=
  repeat (apply elem_of_cons in He; destruct He as [?|He]);
  [.. | apply elem_of_nil in He; contradiction];
  simplify_eq.



(** A save whose delete of the old template associations fails goes on
    as if it had succeeded: no alert is raised and the draft is closed. *)
Lemma handleSaveCampaign_delete_failure_unnoticed :
  failed Sample.envNoDelete (Remote (DeleteCampaignTemplates "c1"))
  /\ Remote (DeleteCampaignTemplates "c1")
       ∈ trace_of (run (handleSaveCampaign "Spring") Sample.envNoDelete
                       Sample.editing)
  /\ (forall message,
        Alert message
          ∉ trace_of (run (handleSaveCampaign "Spring") Sample.envNoDelete
                          Sample.editing))
  /\ currentCampaign
       (state_of (run (handleSaveCampaign "Spring") Sample.envNoDelete
                      Sample.editing)) = None.
Proof.
  split; [cbn; discriminate|]. split; [vm_compute; in_list|].
  split; [|reflexivity].
  intros message H. vm_compute in H. split_mem H.
Qed.


(** ** Adding a Google credential *)

Lemma cached_iff (st : GoogleTab.State) :
  existsb (fun email => String.eqb (GoogleEmail.address email)
                                   (GoogleTab.newEmail st))
          (GoogleTab.googleEmails st) = true
  <-> exists g, g ∈ GoogleTab.googleEmails st
        /\ GoogleEmail.address g = GoogleTab.newEmail st.
Proof.
  rewrite existsb_elem_of.
  split; intros (g & Hg & E); exists g; (split; [exact Hg|]).
  - apply String.eqb_eq in E. exact E.
  - apply String.eqb_eq. exact E.
Qed.

(** C8, as stated, at a submission of a cached address with a password
    that is too short: the add fails on the password, before the check
    against the cache, and no duplicate error is set. *)
Lemma handleAddGoogleEmail_cached_short_password :
  (exists g, g ∈ GoogleTab.googleEmails Sample.tabShort
     /\ GoogleEmail.address g = GoogleTab.newEmail Sample.tabShort)
  /\ GoogleTab.emailError
       (state_of (run GoogleTab.handleAddGoogleEmail Sample.env Sample.tabShort))
     <> "This email is already in the list"
  /\ GoogleTab.passwordError
       (state_of (run GoogleTab.handleAddGoogleEmail Sample.env Sample.tabShort))
     = "App password must be 16 characters long".
Proof.
  split.
  - exists (Sample.google "a@gmail.com").
    split; [apply list_elem_of_here | reflexivity].
  - split; [vm_compute; discriminate | reflexivity].
Qed.

(** C8 (amended): a submission whose address fails the format check is
    refused with the message of the address check, and one whose address
    passes and whose password fails with the message of the password
    check; nothing is sent and nothing else changes. A submission that
    passes both and whose address is in the cached list is refused with
    the duplicate message, nothing is sent and nothing else changes. One
    whose address is not cached and whose insert the store refuses with
    code 23505 gets the message "This email is already registered", which
    is not the local duplicate message, and no alert; a refusal with any
    other code, and a failed sign-in lookup, raise the alert and set no
    message; in all these cases the cached list is as before. *)
Theorem handleAddGoogleEmail_duplicates (env : Env) (st : GoogleTab.State) :
  let r := run GoogleTab.handleAddGoogleEmail env st in
  let cached :=
    exists g, g ∈ GoogleTab.googleEmails st
      /\ GoogleEmail.address g = GoogleTab.newEmail st in
  let wellFormed :=
    GoogleTab.validateEmail (GoogleTab.newEmail st) = true
    /\ GoogleTab.validateAppPassword (GoogleTab.newAppPassword st) = true in
  let request uid :=
    InsertGoogleEmail uid (GoogleTab.newEmail st)
                      (GoogleTab.newAppPassword st) in
  (GoogleTab.validateEmail (GoogleTab.newEmail st) = false ->
     r = (inr tt,
          {| GoogleTab.googleEmails := GoogleTab.googleEmails st;
             GoogleTab.newEmail := GoogleTab.newEmail st;
             GoogleTab.newAppPassword := GoogleTab.newAppPassword st;
             GoogleTab.emailError := "Please enter a valid Gmail address";
             GoogleTab.passwordError := GoogleTab.passwordError st |},
          []))
  /\ (GoogleTab.validateEmail (GoogleTab.newEmail st) = true ->
      GoogleTab.validateAppPassword (GoogleTab.newAppPassword st) = false ->
      r = (inr tt,
           {| GoogleTab.googleEmails := GoogleTab.googleEmails st;
              GoogleTab.newEmail := GoogleTab.newEmail st;
              GoogleTab.newAppPassword := GoogleTab.newAppPassword st;
              GoogleTab.emailError := GoogleTab.emailError st;
              GoogleTab.passwordError :=
                "App password must be 16 characters long" |},
           []))
  /\ (wellFormed -> cached ->
        r = (inr tt,
             {| GoogleTab.googleEmails := GoogleTab.googleEmails st;
                GoogleTab.newEmail := GoogleTab.newEmail st;
                GoogleTab.newAppPassword := GoogleTab.newAppPassword st;
                GoogleTab.emailError := "This email is already in the list";
                GoogleTab.passwordError := GoogleTab.passwordError st |},
             []))
  /\ (wellFormed -> ~ cached ->
      forall uid e,
        auth_user env = Some uid ->
        error (exec env (request uid)) = Some e ->
        code e = "23505" ->
        r = (inr tt,
             {| GoogleTab.googleEmails := GoogleTab.googleEmails st;
                GoogleTab.newEmail := GoogleTab.newEmail st;
                GoogleTab.newAppPassword := GoogleTab.newAppPassword st;
                GoogleTab.emailError := "This email is already registered";
                GoogleTab.passwordError := GoogleTab.passwordError st |},
             [Remote AuthGetUser; Remote (request uid)])
        /\ "This email is already registered"
           <> "This email is already in the list")
  /\ (wellFormed -> ~ cached ->
      forall uid e,
        auth_user env = Some uid ->
        error (exec env (request uid)) = Some e ->
        code e <> "23505" ->
        r = (inr tt, st,
             [Remote AuthGetUser; Remote (request uid);
              ConsoleError "Error adding Google SMTP email:";
              Alert "Failed to add email. Please try again."]))
  /\ (wellFormed -> ~ cached ->
      auth_user env = None ->
      r = (inr tt, st,
           [Remote AuthGetUser;
            ConsoleError "Error adding Google SMTP email:";
            Alert "Failed to add email. Please try again."])).
Proof.
  intros r cached wellFormed request. subst r cached wellFormed request.
  pose proof (cached_iff st) as Hc.
  unfold run, GoogleTab.handleAddGoogleEmail. step.
  destruct (GoogleTab.validateEmail (GoogleTab.newEmail st)) eqn:He;
    cbv beta iota delta [negb].
  2:{ split; [intros _; reflexivity|].
      split; [discriminate|].
      split; [|split; [|split]]; intros [? _]; discriminate. }
  split; [discriminate|].
  destruct (GoogleTab.validateAppPassword (GoogleTab.newAppPassword st))
    eqn:Hp; cbv beta iota delta [negb].
  2:{ split; [intros _ _; reflexivity|].
      split; [|split; [|split]]; intros [_ ?]; discriminate. }
  split; [intros _; discriminate|].
  destruct (existsb _ (GoogleTab.googleEmails st)) eqn:Hd;
    cbv beta iota delta [negb].
  - split; [intros _ _; reflexivity|].
    split; [|split]; intros _ Hn; exfalso; apply Hn, Hc; reflexivity.
  - split; [intros _ H; apply Hc in H; discriminate|].
    split; [|split].
    + intros _ _ uid e Hu Herr Hcode. cbv beta iota. rewrite Hu.
      cbv beta iota. rewrite Herr. cbv beta iota. rewrite Hcode. cbn.
      split; [reflexivity | discriminate].
    + intros _ _ uid e Hu Herr Hcode. cbv beta iota. rewrite Hu.
      cbv beta iota. rewrite Herr. cbv beta iota.
      apply String.eqb_neq in Hcode. rewrite Hcode. reflexivity.
    + intros _ _ Hu. cbv beta iota. rewrite Hu. reflexivity.
Qed.

(** ** The format checks of the Google tab *)

Lemma afterLocalChar_cons (c : ascii) (s : string) :
  GoogleTab.afterLocalChar (String c s)
  = if GoogleTab.isLocalChar c then GoogleTab.afterLocalChar s
    else String.eqb (String c s) "@gmail.com".
Proof. reflexivity. Qed.

Lemma afterLocalChar_spec (s : string) :
  GoogleTab.afterLocalChar s = true <->
  exists p, Forall (fun c => GoogleTab.isLocalChar c = true)
                   (list_ascii_of_string p)
            /\ s = String.append p "@gmail.com".
Proof.
  induction s as [|c s IH].
  - split; [discriminate|]. intros ([|c p] & _ & H); discriminate.
  - rewrite afterLocalChar_cons.
    destruct (GoogleTab.isLocalChar c) eqn:Hc.
    + rewrite IH. split.
      * intros (p & Hp & ->). exists (String c p).
        split; [constructor; assumption | reflexivity].
      * intros ([|c' p] & Hp & H).
        -- cbn in H. injection H as -> _. discriminate.
        -- cbn in H. injection H as -> ->. cbn in Hp.
           apply Forall_cons in Hp as [_ Hp]. exists p. split; auto.
    + rewrite String.eqb_eq. split.
      * intros ->. exists EmptyString. split; [constructor | reflexivity].
      * intros ([|c' p] & Hp & H); [exact H|].
        cbn in H. injection H as -> _. cbn in Hp.
        apply Forall_cons in Hp as [Hp _]. congruence.
Qed.

(** [validateEmail] accepts the language of [^[^\s@]+@gmail\.com$]: a
    non-empty local part without white space and without [@], followed by
    the literal. *)
Lemma validateEmail_spec (s : string) :
  GoogleTab.validateEmail s = true <->
  exists p, p <> EmptyString
            /\ Forall (fun c => GoogleTab.isLocalChar c = true)
                      (list_ascii_of_string p)
            /\ s = String.append p "@gmail.com".
Proof.
  destruct s as [|c s]; cbn [GoogleTab.validateEmail].
  - split; [discriminate|]. intros ([|c p] & _ & _ & H); discriminate.
  - rewrite andb_true_iff, afterLocalChar_spec. split.
    + intros (Hc & p & Hp & ->). exists (String c p).
      split; [discriminate|]. split; [constructor; assumption | reflexivity].
    + intros ([|c' p] & Hne & Hp & H); [contradiction|].
      cbn in H. injection H as -> ->. cbn in Hp.
      apply Forall_cons in Hp as [Hc Hp]. split; [exact Hc|].
      exists p. split; auto.
Qed.

(** [validateAppPassword] accepts the strings of sixteen characters, all
    of them letters or digits. *)
Lemma validateAppPassword_spec (s : string) :
  GoogleTab.validateAppPassword s = true <->
  String.length s = 16
  /\ Forall (fun c => GoogleTab.isAlnum c = true) (list_ascii_of_string s).
Proof.
  unfold GoogleTab.validateAppPassword.
  rewrite !andb_true_iff, Nat.eqb_eq, negb_true_iff, forallb_forall,
    Forall_forall.
  split.
  - intros (Hl & _ & H). split; [exact Hl|].
    intros c Hc. apply H, list_elem_of_In, Hc.
  - intros (Hl & H). split; [exact Hl|]. split.
    + destruct s; [discriminate | reflexivity].
    + intros c Hc. apply H, list_elem_of_In, Hc.
Qed.

Example validateEmail_samples :
  GoogleTab.validateEmail "a@gmail.com" = true
  /\ GoogleTab.validateEmail "@gmail.com" = false
  /\ GoogleTab.validateEmail "a b@gmail.com" = false
  /\ GoogleTab.validateEmail "a@gmail.com.au" = false
  /\ GoogleTab.validateEmail "a@b@gmail.com" = false.
Proof. repeat split. Qed.

Example parseInt_samples :
  parseInt "1440" = Num 1440 /\ parseInt "" = NaN /\ parseInt "0" = Num 0
  /\ parseInt "-3" = Num (-3) /\ parseInt "12.5" = Num 12
  /\ parseInt " 7x" = Num 7.
Proof. repeat split. Qed.

(** Above 2^53 [parseInt] yields the nearest double, ties to the even
    one; below, the integer read. *)
Example parseInt_rounds_to_double :
  parseInt "9007199254740991" = Num 9007199254740991
  /\ parseInt "9007199254740993" = Num 9007199254740992
  /\ parseInt "9007199254740995" = Num 9007199254740996
  /\ parseInt "-9007199254740993" = Num (-9007199254740992)
  /\ parseInt "18014398509481987" = Num 18014398509481988.
Proof. repeat split; vm_compute; reflexivity. Qed.

(** 310 digits denote a number beyond the doubles: [parseInt] yields an
    infinite value, which [||] keeps. *)
Example parseInt_beyond_doubles :
  let digits := String.concat "" (repeat "9999999999" 31) in
  parseInt digits = Infinity false
  /\ parseInt ("-" ++ digits) = Infinity true
  /\ orNumber (Some (parseInt digits)) 1440 = Infinity false.
Proof. repeat split; vm_compute; reflexivity. Qed.

Lemma toDouble_exact (z : Z) : (z < 2 ^ 53)%Z -> toDouble z = z.
Proof.
  intros H. unfold toDouble.
  destruct (Z.ltb_spec z (2 ^ 53)) as [_|H']; [reflexivity | lia].
Qed.

(** The draft of [handleCreateCampaign]: no id, the first city, no days
    till close, nothing attached. *)
Example handleCreateCampaign_draft (env : Env) (st : State) :
  currentCampaign (state_of (run handleCreateCampaign env st))
  = Some {| Campaign.id := ""; Campaign.name := "New Campaign";
            Campaign.isActive := false; Campaign.city := "New York";
            Campaign.subjectLines := []; Campaign.daysTillClose := "NA";
            Campaign.templates := []; Campaign.emails := [];
            Campaign.lastModified := now env 0 |}.
Proof. reflexivity. Qed.

(** ** The theorems at sample values *)

(** The validator on the spec's example and on the same campaign without
    its sender. *)
Lemma validateCampaign_first_failure_witness :
  validateCampaign Sample.chicago = {| valid := true; reason := None |}
  /\ validateCampaign (Campaign.with_emails Sample.chicago [])
     = invalid "At least one sender email is required".
Proof.
  split.
  - apply (proj1 (validateCampaign_first_failure Sample.chicago)).
    repeat split; try discriminate. vm_compute. lia.
  - apply (proj1 (proj2 (validateCampaign_first_failure
                           (Campaign.with_emails Sample.chicago [])))).
    reflexivity.
Defined.

(** With the SES credential [s@corp.com] alone, [mixed] keeps its place,
    its name and only senders that a credential holds. *)
Lemma reconcileEffect_frame_witness :
  AppPage.campaigns Sample.listing !! 0 = Some Sample.mixed
  /\ exists c',
       campaigns (state_of (run (reconcileEffect [Sample.ses "s@corp.com"] [])
                                Sample.env Sample.listing)) !! 0 = Some c'
       /\ Campaign.name c' = "Autumn"
       /\ sublist (Campaign.emails c') (Campaign.emails Sample.mixed).
Proof.
  split; [reflexivity|].
  destruct (reconcileEffect_frame [Sample.ses "s@corp.com"] [] Sample.env
              Sample.listing 0 Sample.mixed eq_refl)
    as (_ & _ & _ & c' & H1 & _ & _ & H2 & _ & H3 & _).
  exists c'. split; [exact H1|]. split; [exact H3 | exact H2].
Defined.

(** The Gmail-typed sender [a@gmail.com] of [mixed] survives when only an
    SES credential has that address. *)
Lemma reconcile_by_address_only_witness :
  Sample.sender "a@gmail.com" gmail 1440 ∈ Campaign.emails Sample.mixed
  /\ Sample.sender "a@gmail.com" gmail 1440
       ∈ Campaign.emails
           (reconcileCampaign [Sample.ses "a@gmail.com"] [] Sample.mixed).
Proof.
  assert (H : Sample.sender "a@gmail.com" gmail 1440
                ∈ Campaign.emails Sample.mixed) by apply list_elem_of_here.
  split; [exact H|].
  apply (proj1 (proj2 (reconcile_by_address_only
                         [Sample.ses "a@gmail.com"]
                         [Sample.google "a@gmail.com"] Sample.mixed _ H))).
  exists (Sample.ses "a@gmail.com").
  split; [apply list_elem_of_here | reflexivity].
Defined.

(** Adding the html template [t2] to the draft [chicago], which has the
    body template [t1], is refused. *)
Lemma handleAddTemplate_rejections_witness :
  currentCampaign Sample.editing = Some Sample.chicago
  /\ selectedTemplateId Sample.editing <> ""
  /\ exists message,
       run (handleAddTemplate Sample.store) Sample.env Sample.editing
       = (inr tt, Sample.editing, [Alert message]).
Proof.
  split; [reflexivity|]. split; [discriminate|].
  apply (proj1 (handleAddTemplate_rejections Sample.store Sample.env
                  Sample.editing Sample.chicago Sample.html2
                  eq_refl ltac:(discriminate) eq_refl)).
  - reflexivity.
  - exists (Sample.asBody Sample.html1).
    split; [apply list_elem_of_here | reflexivity].
Defined.


(** A click on the active campaign [mixed] is refused; a click on
    [chicago], which is not active, opens it. *)
Lemma handleCampaignClick_gate_witness :
  Campaign.isActive Sample.mixed = true
  /\ run (handleCampaignClick false Sample.mixed) Sample.env Sample.listing
     = (inr tt, Sample.listing,
        [Alert "Cannot edit an active campaign. Please deactivate it first."])
  /\ Campaign.isActive Sample.chicago = false
  /\ currentCampaign
       (state_of (run (handleCampaignClick false Sample.chicago) Sample.env
                      Sample.browsing)) = Some Sample.chicago.
Proof.
  split; [reflexivity|]. split.
  - apply (proj1 (handleCampaignClick_gate Sample.env Sample.listing
                    Sample.mixed)). reflexivity.
  - split; [reflexivity|].
    apply (proj2 (handleCampaignClick_gate Sample.env Sample.browsing
                    Sample.chicago)). reflexivity.
Defined.

(** Saving the draft [chicago], whose row exists, with a store that
    accepts everything: the save does not fail and the row is updated with
    [is_active] false. *)
Lemma handleSaveCampaign_writes_inactive_witness :
  currentCampaign Sample.editing = Some Sample.chicago
  /\ ~ saveFailed (trace_of (run (handleSaveCampaign "Spring") Sample.env
                                 Sample.editing))
  /\ exists row,
       CampaignRow.is_active row = false
       /\ Remote (UpdateCampaign "c1" row)
            ∈ trace_of (run (handleSaveCampaign "Spring") Sample.env
                            Sample.editing).
Proof.
  assert (Hok : ~ saveFailed (trace_of (run (handleSaveCampaign "Spring")
                                            Sample.env Sample.editing))).
  { unfold saveFailed. vm_compute. intros H. split_mem H. }
  split; [reflexivity|]. split; [exact Hok|].
  destruct (proj2 (handleSaveCampaign_writes_inactive Sample.env
                     Sample.editing Sample.chicago "Spring" eq_refl) Hok)
    as (row & H1 & _ & _ & H2).
  exists row. split; [exact H1|]. apply H2. discriminate.
Defined.


(** A well-formed submission of the cached address is refused locally; a
    well-formed submission of another address that the store refuses with
    23505 gets the other message. *)
Lemma handleAddGoogleEmail_duplicates_witness :
  run GoogleTab.handleAddGoogleEmail Sample.env Sample.tabDuplicate
  = (inr tt,
     {| GoogleTab.googleEmails := [Sample.google "a@gmail.com"];
        GoogleTab.newEmail := "a@gmail.com";
        GoogleTab.newAppPassword := "abcdefgh12345678";
        GoogleTab.emailError := "This email is already in the list";
        GoogleTab.passwordError := "" |},
     [])
  /\ GoogleTab.emailError
       (state_of (run GoogleTab.handleAddGoogleEmail Sample.envTaken
                      Sample.tabFresh))
     = "This email is already registered".
Proof.
  split.
  - apply (proj1 (proj2 (proj2 (handleAddGoogleEmail_duplicates Sample.env
                                  Sample.tabDuplicate)))).
    + split; reflexivity.
    + exists (Sample.google "a@gmail.com").
      split; [apply list_elem_of_here | reflexivity].
  - destruct (proj1 (proj2 (proj2 (proj2 (handleAddGoogleEmail_duplicates
                                            Sample.envTaken Sample.tabFresh))))
                (conj eq_refl eq_refl)
                ltac:(intros (g & Hg & E); apply list_elem_of_singleton in Hg;
                      subst g; discriminate)
                "u1" {| code := "23505" |} eq_refl eq_refl eq_refl) as [H _].
    rewrite H. reflexivity.
Defined.

(** * Further properties *)

(** ** The cached list of Google credentials *)

Lemma not_cached_iff (st : GoogleTab.State) :
  existsb (fun email => String.eqb (GoogleEmail.address email)
                                   (GoogleTab.newEmail st))
          (GoogleTab.googleEmails st) = false
  <-> GoogleTab.newEmail st ∉ GoogleEmail.address <$> GoogleTab.googleEmails st.
Proof.
  rewrite <- not_true_iff_false, cached_iff, list_elem_of_fmap.
  split; intros H (g & H1 & H2); apply H; exists g; split; auto.
Qed.

Lemma handleAddGoogleEmail_success (env : Env) (st : GoogleTab.State)
    (uid : string) :
  GoogleTab.validateEmail (GoogleTab.newEmail st) = true ->
  GoogleTab.validateAppPassword (GoogleTab.newAppPassword st) = true ->
  GoogleTab.newEmail st ∉ GoogleEmail.address <$> GoogleTab.googleEmails st ->
  auth_user env = Some uid ->
  error (exec env (InsertGoogleEmail uid (GoogleTab.newEmail st)
                                     (GoogleTab.newAppPassword st))) = None ->
  run GoogleTab.handleAddGoogleEmail env st
  = (inr tt,
     {| GoogleTab.googleEmails :=
          GoogleTab.googleEmails st
          ++ [{| GoogleEmail.address := GoogleTab.newEmail st;
                 GoogleEmail.appPassword := GoogleTab.newAppPassword st;
                 GoogleEmail.testing := None |}];
        GoogleTab.newEmail := ""; GoogleTab.newAppPassword := "";
        GoogleTab.emailError := ""; GoogleTab.passwordError := "" |},
     [Remote AuthGetUser;
      Remote (InsertGoogleEmail uid (GoogleTab.newEmail st)
                                (GoogleTab.newAppPassword st))]).
Proof.
  intros He Hp Hc Hu Hok. apply not_cached_iff in Hc.
  unfold run, GoogleTab.handleAddGoogleEmail. step.
  rewrite He, Hp, Hc. cbv beta iota delta [negb]. rewrite Hu.
  cbv beta iota. rewrite Hok. reflexivity.
Qed.

Lemma handleRemoveGoogleEmail_success (env : Env) (st : GoogleTab.State)
    (address uid : string) :
  auth_user env = Some uid ->
  error (exec env (DeleteGoogleEmail uid address)) = None ->
  run (GoogleTab.handleRemoveGoogleEmail address) env st
  = (inr tt,
     {| GoogleTab.googleEmails :=
          List.filter (fun email => negb (String.eqb (GoogleEmail.address email)
                                                     address))
                      (GoogleTab.googleEmails st);
        GoogleTab.newEmail := GoogleTab.newEmail st;
        GoogleTab.newAppPassword := GoogleTab.newAppPassword st;
        GoogleTab.emailError := GoogleTab.emailError st;
        GoogleTab.passwordError := GoogleTab.passwordError st |},
     [Remote AuthGetUser; Remote (DeleteGoogleEmail uid address)]).
Proof.
  intros Hu Hok. unfold run, GoogleTab.handleRemoveGoogleEmail. step.
  rewrite Hu. cbv beta iota. rewrite Hok. reflexivity.
Qed.

(** The JavaScript filter that drops the entries with a given address. *)
Lemma filter_other_address {A} (f : A -> string) (a : string) (l : list A) :
  List.filter (fun x => negb (String.eqb (f x) a)) l
  = filter (fun x => f x <> a) l.
Proof.
  induction l as [|x l IH]; [reflexivity|]. cbn [List.filter].
  destruct (String.eqb_spec (f x) a) as [E|E]; cbn [negb].
  - rewrite filter_cons_False by tauto. exact IH.
  - rewrite filter_cons_True by exact E. f_equal. exact IH.
Qed.

Lemma filter_other_address_id {A} (f : A -> string) (a : string) (l : list A) :
  a ∉ f <$> l ->
  List.filter (fun x => negb (String.eqb (f x) a)) l = l.
Proof.
  induction l as [|x l IH]; [reflexivity|]. intros H.
  apply not_elem_of_cons in H as [H1 H2]. cbn [List.filter].
  destruct (String.eqb_spec (f x) a) as [E|E]; [congruence|].
  cbn [negb]. f_equal. apply IH, H2.
Qed.

Lemma NoDup_filter_other_address {A} (f : A -> string) (a : string)
    (l : list A) :
  NoDup (f <$> l) ->
  NoDup (f <$> List.filter (fun x => negb (String.eqb (f x) a)) l).
Proof.
  induction l as [|x l IH]; [intros; constructor|].
  cbn [List.filter]. rewrite fmap_cons. intros H.
  apply NoDup_cons in H as [H1 H2].
  destruct (negb (String.eqb (f x) a)); [|apply IH, H2].
  rewrite fmap_cons. apply NoDup_cons. split; [|apply IH, H2].
  intros Hx. apply H1. apply list_elem_of_fmap in Hx as (y & -> & Hy).
  apply list_elem_of_fmap. exists y. split; [reflexivity|].
  apply list_elem_of_In. apply list_elem_of_In, filter_In in Hy. tauto.
Qed.

Lemma markTesting_address (a : string) (flag : bool) (l : list GoogleEmail.t) :
  GoogleEmail.address <$> More.markTesting a flag l = GoogleEmail.address <$> l.
Proof.
  unfold More.markTesting. rewrite <- list_fmap_compose.
  apply list_fmap_ext. intros i x _. cbn.
  destruct (String.eqb (GoogleEmail.address x) a); reflexivity.
Qed.

Lemma handleTestEmail_run (env : Env) (st : GoogleTab.State)
    (email : GoogleEmail.t) :
  run (More.handleTestEmail email) env st
  = (inr tt,
     {| GoogleTab.googleEmails :=
          More.markTesting (GoogleEmail.address email) false
            (More.markTesting (GoogleEmail.address email) true
               (GoogleTab.googleEmails st));
        GoogleTab.newEmail := GoogleTab.newEmail st;
        GoogleTab.newAppPassword := GoogleTab.newAppPassword st;
        GoogleTab.emailError := GoogleTab.emailError st;
        GoogleTab.passwordError := GoogleTab.passwordError st |},
     [Alert "Test email sent successfully!"]).
Proof. reflexivity. Qed.

(** X1: the three handlers of the Google tab keep the cached addresses
    distinct, whatever the store answers: adding appends only an address
    that is not cached, removing and testing add none. *)
Theorem googleTab_keeps_addresses_distinct (env : Env) (st : GoogleTab.State) :
  More.cacheOk st ->
  More.cacheOk (state_of (run GoogleTab.handleAddGoogleEmail env st))
  /\ (forall address,
        More.cacheOk
          (state_of (run (GoogleTab.handleRemoveGoogleEmail address) env st)))
  /\ (forall email,
        More.cacheOk (state_of (run (More.handleTestEmail email) env st))).
Proof.
  unfold More.cacheOk. intros Hst. split; [|split].
  - unfold run, GoogleTab.handleAddGoogleEmail. step.
    destruct (existsb _ (GoogleTab.googleEmails st)) eqn:Hc.
    + repeat case_step; exact Hst.
    + apply not_cached_iff in Hc.
      repeat case_step; cbn; try exact Hst.
      rewrite fmap_app. apply NoDup_app. split; [exact Hst|].
      split; [|apply NoDup_singleton].
      intros a Ha Hin. apply list_elem_of_singleton in Hin. cbn in Hin.
      subst a. contradiction.
  - intros address. unfold run, GoogleTab.handleRemoveGoogleEmail. step.
    repeat case_step; cbn; try exact Hst.
    apply NoDup_filter_other_address, Hst.
  - intros email. rewrite handleTestEmail_run. cbn.
    rewrite !markTesting_address. exact Hst.
Qed.

(** X2: a removal that the store accepts sends the sign-in lookup and one
    delete, leaves in the cached list exactly the credentials with another
    address, in their order, and leaves the form alone. *)
Theorem handleRemoveGoogleEmail_removes (env : Env) (st : GoogleTab.State)
    (address uid : string) :
  auth_user env = Some uid ->
  error (exec env (DeleteGoogleEmail uid address)) = None ->
  let r := run (GoogleTab.handleRemoveGoogleEmail address) env st in
  trace_of r = [Remote AuthGetUser; Remote (DeleteGoogleEmail uid address)]
  /\ (forall g, g ∈ GoogleTab.googleEmails (state_of r)
                <-> g ∈ GoogleTab.googleEmails st
                    /\ GoogleEmail.address g <> address)
  /\ sublist (GoogleTab.googleEmails (state_of r)) (GoogleTab.googleEmails st)
  /\ GoogleTab.newEmail (state_of r) = GoogleTab.newEmail st
  /\ GoogleTab.newAppPassword (state_of r) = GoogleTab.newAppPassword st
  /\ GoogleTab.emailError (state_of r) = GoogleTab.emailError st
  /\ GoogleTab.passwordError (state_of r) = GoogleTab.passwordError st.
Proof.
  intros Hu Hok r. subst r.
  rewrite (handleRemoveGoogleEmail_success env st address uid Hu Hok). cbn.
  rewrite filter_other_address.
  split; [reflexivity|]. split.
  { intros g. rewrite list_elem_of_filter. tauto. }
  split; [apply sublist_filter|]. repeat split.
Qed.

(** X3: adding a credential that is not cached and then removing its
    address, the store accepting both, gives back the cached list. *)
Theorem googleTab_add_then_remove (env : Env) (st : GoogleTab.State)
    (uid : string) :
  GoogleTab.validateEmail (GoogleTab.newEmail st) = true ->
  GoogleTab.validateAppPassword (GoogleTab.newAppPassword st) = true ->
  GoogleTab.newEmail st ∉ GoogleEmail.address <$> GoogleTab.googleEmails st ->
  auth_user env = Some uid ->
  (forall r, error (exec env r) = None) ->
  GoogleTab.googleEmails
    (state_of (run (GoogleTab.handleRemoveGoogleEmail (GoogleTab.newEmail st))
                   env
                   (state_of (run GoogleTab.handleAddGoogleEmail env st))))
  = GoogleTab.googleEmails st.
Proof.
  intros He Hp Hc Hu Hok.
  rewrite (handleAddGoogleEmail_success env st uid He Hp Hc Hu (Hok _)).
  rewrite (handleRemoveGoogleEmail_success env _ _ uid Hu (Hok _)). cbn.
  rewrite List.filter_app, (filter_other_address_id _ _ _ Hc). cbn.
  rewrite String.eqb_refl. cbn. apply app_nil_r.
Qed.

(** X4: a test of a credential sends nothing to the store and ends with
    the alert of success; every cached credential keeps its place, its
    address and its app password, one with another address is as it was,
    and one with the tested address is no longer marked as being tested. *)
Theorem handleTestEmail_keeps_credentials (env : Env) (st : GoogleTab.State)
    (email : GoogleEmail.t) :
  let r := run (More.handleTestEmail email) env st in
  trace_of r = [Alert "Test email sent successfully!"]
  /\ length (GoogleTab.googleEmails (state_of r))
     = length (GoogleTab.googleEmails st)
  /\ (forall i g, GoogleTab.googleEmails st !! i = Some g ->
        exists g', GoogleTab.googleEmails (state_of r) !! i = Some g'
          /\ GoogleEmail.address g' = GoogleEmail.address g
          /\ GoogleEmail.appPassword g' = GoogleEmail.appPassword g
          /\ (GoogleEmail.address g <> GoogleEmail.address email -> g' = g)
          /\ (GoogleEmail.address g = GoogleEmail.address email ->
              GoogleEmail.testing g' = Some false))
  /\ GoogleTab.newEmail (state_of r) = GoogleTab.newEmail st
  /\ GoogleTab.newAppPassword (state_of r) = GoogleTab.newAppPassword st.
Proof.
  intros r. subst r. rewrite handleTestEmail_run. cbn.
  split; [reflexivity|]. unfold More.markTesting.
  split; [rewrite !length_fmap; reflexivity|].
  split; [|split; reflexivity].
  intros i g Hi. rewrite !list_lookup_fmap, Hi. cbn.
  eexists. split; [reflexivity|].
  destruct (String.eqb_spec (GoogleEmail.address g)
                            (GoogleEmail.address email)) as [E|E]; cbn.
  - rewrite E, String.eqb_refl. cbn. repeat split; congruence.
  - destruct (String.eqb_spec (GoogleEmail.address g)
                              (GoogleEmail.address email)); [contradiction|].
    repeat split; congruence.
Qed.

(** ** The list of campaigns *)

Lemma orString_nonempty (x : option string) (d : string) :
  d <> "" -> orString x d <> "".
Proof.
  intros Hd. unfold orString. destruct x as [s|]; [|exact Hd].
  destruct (String.eqb_spec s ""); assumption.
Qed.

(** X5: a load of the list always ends normally with [isLoading] false
    and never touches the draft or the selected template. It either fails,
    keeping the list and raising the alert, or it was answered without
    error by a signed-in store and replaces the list by the transformed
    rows, after the sign-in lookup and one select. A loaded campaign never
    has an empty [daysTillClose]. *)
Theorem fetchCampaigns_outcome (env : Env) (st : State) :
  let r := run fetchCampaigns env st in
  result_of r = inr tt
  /\ isLoading (state_of r) = false
  /\ currentCampaign (state_of r) = currentCampaign st
  /\ selectedTemplateId (state_of r) = selectedTemplateId st
  /\ (campaigns (state_of r) = campaigns st
      /\ Alert "Failed to load campaigns. Please try again." ∈ trace_of r
      \/ exists uid rows,
           auth_user env = Some uid
           /\ error (exec env (SelectCampaigns uid)) = None
           /\ data (exec env (SelectCampaigns uid)) = CampaignsData rows
           /\ campaigns (state_of r) = map transformCampaign rows
           /\ trace_of r = [Remote AuthGetUser; Remote (SelectCampaigns uid)])
  /\ (forall row, Campaign.daysTillClose (transformCampaign row) <> "").
Proof.
  cbv zeta. unfold run, fetchCampaigns. step.
  repeat case_step; cbn;
    (repeat (split; [reflexivity|]));
    (split; [| intros row; apply orString_nonempty; discriminate]);
    first [ left; split; [reflexivity | solve [in_list]]
          | right; eexists; eexists; repeat (split; [eassumption || reflexivity|]);
            reflexivity ].
Qed.

Lemma toggle_find_none (env : Env) (st : State) (id : string) (a : bool) :
  List.find (fun c => String.eqb (Campaign.id c) id) (campaigns st) = None ->
  run (handleToggleActive id a) env st = (inr tt, st, []).
Proof.
  intros H. unfold run, handleToggleActive. step. rewrite H. reflexivity.
Qed.

Lemma validateCampaign_reason (c : Campaign.t) :
  valid (validateCampaign c) = false ->
  exists message, reason (validateCampaign c) = Some message
                  /\ reasonText (validateCampaign c) = message.
Proof.
  unfold validateCampaign, reasonText.
  repeat match goal with
         | |- context [if ?b then _ else _] => destruct b
         end; cbn; intros H; try discriminate; eexists; split; reflexivity.
Qed.

(** X6: the toggle looks at the first campaign of the list with the
    given id. Turning it on when the validator rejects it raises an alert
    with the validator's reason, sends nothing and changes nothing.
    Turning it off, whatever the validator says, and turning it on when the
    validator accepts it, sends the update of the status first. With no
    campaign of that id the toggle does nothing. *)
Theorem handleToggleActive_gate (env : Env) (st : State) (id : string) :
  (forall c,
      List.find (fun c => String.eqb (Campaign.id c) id) (campaigns st)
        = Some c ->
      valid (validateCampaign c) = false ->
      exists message,
        reason (validateCampaign c) = Some message
        /\ run (handleToggleActive id true) env st
           = (inr tt, st, [Alert message]))
  /\ (forall c a,
        List.find (fun c => String.eqb (Campaign.id c) id) (campaigns st)
          = Some c ->
        a = false \/ valid (validateCampaign c) = true ->
        exists rest,
          trace_of (run (handleToggleActive id a) env st)
          = Remote (UpdateCampaignStatus id a (now env 0)) :: rest)
  /\ (forall a,
        List.find (fun c => String.eqb (Campaign.id c) id) (campaigns st)
          = None ->
        run (handleToggleActive id a) env st = (inr tt, st, [])).
Proof.
  split; [|split].
  - intros c Hf Hv. destruct (validateCampaign_reason c Hv) as (m & Hm & Ht).
    exists m. split; [exact Hm|].
    unfold run, handleToggleActive. step. rewrite Hf, Hv. cbn.
    rewrite Ht. reflexivity.
  - intros c a Hf Ha. unfold run, handleToggleActive. step. rewrite Hf.
    assert (E : a && negb (valid (validateCampaign c)) = false).
    { destruct Ha as [->| ->]; [reflexivity | apply andb_false_r]. }
    rewrite E. cbv beta iota.
    repeat case_step; cbn; eexists; reflexivity.
  - intros a Hf. apply toggle_find_none, Hf.
Qed.

Lemma setStatus_length (id : string) (a : bool) (clock : nat -> string)
    (k : nat) (l : list Campaign.t) :
  length (setStatus id a clock k l) = length l.
Proof.
  revert k. induction l as [|c l IH]; intros k; [reflexivity|].
  cbn [setStatus]. destruct (String.eqb (Campaign.id c) id); cbn;
    rewrite IH; reflexivity.
Qed.

Lemma setStatus_ids (id : string) (a : bool) (clock : nat -> string)
    (k : nat) (l : list Campaign.t) :
  Campaign.id <$> setStatus id a clock k l = Campaign.id <$> l.
Proof.
  revert k. induction l as [|c l IH]; intros k; [reflexivity|].
  cbn [setStatus]. destruct (String.eqb (Campaign.id c) id);
    rewrite !fmap_cons, IH; reflexivity.
Qed.

(** The campaign at a position after [setStatus]: one with the id gets
    the flag and the reading whose number is [k] plus the number of
    campaigns with the id before it. *)
Lemma setStatus_lookup (id : string) (a : bool) (clock : nat -> string)
    (l : list Campaign.t) :
  forall k i x, l !! i = Some x ->
    setStatus id a clock k l !! i
    = Some (if String.eqb (Campaign.id x) id
            then Campaign.with_status x a
                   (clock (k + length
                                 (List.filter
                                    (fun c => String.eqb (Campaign.id c) id)
                                    (take i l))))
            else x).
Proof.
  induction l as [|c l IH]; intros k i x Hi; [discriminate|].
  destruct i as [|i].
  - injection Hi as ->. cbn [setStatus take List.filter length].
    rewrite Nat.add_0_r.
    destruct (String.eqb (Campaign.id x) id); reflexivity.
  - cbn in Hi. cbn [setStatus take List.filter].
    destruct (String.eqb (Campaign.id c) id); cbn [length].
    + etransitivity; [exact (IH (S k) i x Hi)|].
      rewrite Nat.add_succ_r. reflexivity.
    + exact (IH k i x Hi).
Qed.

Lemma no_earlier_with_id (l : list Campaign.t) (i : nat) (x : Campaign.t) :
  NoDup (Campaign.id <$> l) -> l !! i = Some x ->
  List.filter (fun c => String.eqb (Campaign.id c) (Campaign.id x)) (take i l)
  = [].
Proof.
  intros Hnd Hi.
  destruct (List.filter _ (take i l)) as [|y ys] eqn:E; [reflexivity|].
  exfalso.
  assert (Hy : In y (List.filter
                       (fun c => String.eqb (Campaign.id c) (Campaign.id x))
                       (take i l))) by (rewrite E; left; reflexivity).
  apply filter_In in Hy as [Hy Hid]. apply String.eqb_eq in Hid.
  apply list_elem_of_In, elem_of_take in Hy as (j & Hj & Hlt).
  assert (i = j); [|lia].
  apply (NoDup_lookup (Campaign.id <$> l) i j (Campaign.id x) Hnd).
  - rewrite list_lookup_fmap, Hi. reflexivity.
  - rewrite list_lookup_fmap, Hj. cbn. congruence.
Qed.

Lemma handleToggleActive_success (env : Env) (st : State) (id : string)
    (a : bool) (c : Campaign.t) :
  List.find (fun c => String.eqb (Campaign.id c) id) (campaigns st) = Some c ->
  a && negb (valid (validateCampaign c)) = false ->
  error (exec env (UpdateCampaignStatus id a (now env 0))) = None ->
  run (handleToggleActive id a) env st
  = (inr tt,
     {| campaigns := setStatus id a (now env) 1 (campaigns st);
        currentCampaign := currentCampaign st;
        selectedTemplateId := selectedTemplateId st;
        isLoading := isLoading st |},
     [Remote (UpdateCampaignStatus id a (now env 0))]).
Proof.
  intros Hf Hg Hok. unfold run, handleToggleActive. step.
  rewrite Hf, Hg. cbv beta iota. rewrite Hok. reflexivity.
Qed.

(** X7: a toggle that passes the gate and that the store accepts sends
    the one update and leaves the draft alone; every campaign keeps its
    place, one with another id is as it was, and one with the id gets the
    new flag and keeps all its other fields but [lastModified], which is
    a reading of the clock of its own: the first after the one sent to
    the store for the first campaign with the id, the next for the next.
    When the ids of the list are distinct it is that first reading. *)
Theorem handleToggleActive_frame (env : Env) (st : State) (id : string)
    (a : bool) (c : Campaign.t) :
  List.find (fun c => String.eqb (Campaign.id c) id) (campaigns st) = Some c ->
  a = false \/ valid (validateCampaign c) = true ->
  error (exec env (UpdateCampaignStatus id a (now env 0))) = None ->
  let r := run (handleToggleActive id a) env st in
  trace_of r = [Remote (UpdateCampaignStatus id a (now env 0))]
  /\ currentCampaign (state_of r) = currentCampaign st
  /\ length (campaigns (state_of r)) = length (campaigns st)
  /\ forall i x, campaigns st !! i = Some x ->
       exists x', campaigns (state_of r) !! i = Some x'
         /\ (Campaign.id x <> id -> x' = x)
         /\ (Campaign.id x = id ->
             Campaign.isActive x' = a
             /\ Campaign.lastModified x'
                = now env (S (length
                               (List.filter
                                  (fun c => String.eqb (Campaign.id c) id)
                                  (take i (campaigns st)))))
             /\ (NoDup (Campaign.id <$> campaigns st) ->
                 Campaign.lastModified x' = now env 1)
             /\ Campaign.with_status x' (Campaign.isActive x)
                                     (Campaign.lastModified x) = x).
Proof.
  intros Hf Ha Hok r. subst r.
  assert (E : a && negb (valid (validateCampaign c)) = false).
  { destruct Ha as [->| ->]; [reflexivity | apply andb_false_r]. }
  rewrite (handleToggleActive_success env st id a c Hf E Hok). cbn.
  split; [reflexivity|]. split; [reflexivity|].
  split; [apply setStatus_length|].
  intros i x Hi. rewrite (setStatus_lookup id a (now env) _ 1 i x Hi).
  eexists. split; [reflexivity|].
  destruct (String.eqb_spec (Campaign.id x) id) as [E'|E'].
  - split; [contradiction|]. intros _. cbn.
    split; [reflexivity|]. split; [reflexivity|]. split.
    + intros Hnd. subst id. rewrite (no_earlier_with_id _ i x Hnd Hi).
      reflexivity.
    + destruct x; reflexivity.
  - split; [reflexivity | contradiction].
Qed.

Lemma find_unique_id (cs : list Campaign.t) (id : string) (c x : Campaign.t) :
  NoDup (Campaign.id <$> cs) ->
  List.find (fun c => String.eqb (Campaign.id c) id) cs = Some c ->
  x ∈ cs -> Campaign.id x = id -> x = c.
Proof.
  induction cs as [|y cs IH]; [discriminate|].
  rewrite fmap_cons. intros Hnd Hf Hx Hid.
  apply NoDup_cons in Hnd as [Hy Hnd]. cbn [List.find] in Hf.
  destruct (String.eqb_spec (Campaign.id y) id) as [E|E].
  - injection Hf as <-. apply elem_of_cons in Hx as [Hx|Hx]; [exact Hx|].
    exfalso. apply Hy. apply list_elem_of_fmap. exists x.
    split; [congruence | exact Hx].
  - apply elem_of_cons in Hx as [Hx|Hx]; [congruence|].
    apply IH; assumption.
Qed.

(** X8: when the campaigns of the list have distinct ids and every
    active one passes the validator, this is still so after a toggle,
    whatever the flag and whatever the store answers: the toggle never
    activates a campaign the validator rejects. *)
Theorem handleToggleActive_keeps_active_valid (env : Env) (st : State)
    (id : string) (a : bool) :
  NoDup (Campaign.id <$> campaigns st) ->
  More.activeValid (campaigns st) ->
  More.activeValid (campaigns (state_of (run (handleToggleActive id a) env st)))
  /\ Campaign.id <$> campaigns (state_of (run (handleToggleActive id a) env st))
     = Campaign.id <$> campaigns st.
Proof.
  intros Hnd Hav.
  destruct (List.find (fun c => String.eqb (Campaign.id c) id) (campaigns st))
    as [c|] eqn:Hf.
  2:{ rewrite (toggle_find_none env st id a Hf). split; [exact Hav | reflexivity]. }
  destruct (a && negb (valid (validateCampaign c))) eqn:Hg.
  { unfold run, handleToggleActive. step. rewrite Hf, Hg. cbn.
    split; [exact Hav | reflexivity]. }
  destruct (error (exec env (UpdateCampaignStatus id a (now env 0)))) eqn:Hok.
  { unfold run, handleToggleActive. step. rewrite Hf, Hg. cbv beta iota.
    rewrite Hok. cbn. split; [exact Hav | reflexivity]. }
  rewrite (handleToggleActive_success env st id a c Hf Hg Hok). cbn.
  split; [|apply setStatus_ids].
  unfold More.activeValid in *. apply Forall_lookup. intros i x' Hi.
  assert (Hlt : i < length (campaigns st)).
  { rewrite <- (setStatus_length id a (now env) 1). eapply lookup_lt_Some, Hi. }
  destruct (lookup_lt_is_Some_2 _ _ Hlt) as [x Hx].
  rewrite (setStatus_lookup id a (now env) _ 1 i x Hx) in Hi.
  injection Hi as <-.
  pose proof (proj1 (Forall_lookup _ _) Hav i x Hx) as Hvx.
  destruct (String.eqb_spec (Campaign.id x) id) as [E|E]; [|exact Hvx].
  cbn. intros ->.
  assert (x = c) as ->.
  { eapply find_unique_id; [exact Hnd | exact Hf | | exact E].
    eapply list_elem_of_lookup_2, Hx. }
  cbn in Hg. apply negb_false_iff in Hg.
  change (validateCampaign (Campaign.with_status c true ?t))
    with (validateCampaign c). exact Hg.
Qed.

(** X9: a delete that the store accepts sends the one request, whether
    the campaign is active or not, leaves in the list exactly the campaigns
    with another id, in their order, and leaves the draft alone. *)
Theorem handleDeleteCampaign_removes (env : Env) (st : State) (id : string) :
  error (exec env (DeleteCampaign id)) = None ->
  let r := run (handleDeleteCampaign id) env st in
  trace_of r = [Remote (DeleteCampaign id)]
  /\ (forall c, c ∈ campaigns (state_of r)
                <-> c ∈ campaigns st /\ Campaign.id c <> id)
  /\ sublist (campaigns (state_of r)) (campaigns st)
  /\ currentCampaign (state_of r) = currentCampaign st.
Proof.
  intros Hok r. subst r. unfold run, handleDeleteCampaign. step.
  rewrite Hok. cbn. rewrite filter_other_address.
  split; [reflexivity|]. split.
  { intros c. rewrite list_elem_of_filter. tauto. }
  split; [apply sublist_filter | reflexivity].
Qed.

(** ** What a save sends *)

Lemma orNumber_defined (x : option JsNumber) (d : Z) :
  d <> 0%Z ->
  orNumber x d <> Num 0 /\ orNumber x d <> NaN
  /\ (forall y, x = Some (Num y) -> y <> 0%Z -> orNumber x d = Num y)
  /\ (forall b, x = Some (Infinity b) -> orNumber x d = Infinity b)
  /\ (x = None \/ x = Some NaN \/ x = Some (Num 0) -> orNumber x d = Num d)
  /\ ((forall b, x <> Some (Infinity b)) ->
      exists z, orNumber x d = Num z /\ z <> 0%Z).
Proof.
  intros Hd. unfold orNumber. destruct x as [[y| |b]|].
  - destruct (Z.eqb_spec y 0) as [->|Hy].
    + repeat split; try congruence. intros _. exists d. split; auto.
    + repeat split; try congruence.
      * intros [H|[H|H]]; congruence.
      * intros _. exists y. split; auto.
  - repeat split; try congruence. intros _. exists d. split; auto.
  - repeat split; try congruence.
    + intros [H|[H|H]]; congruence.
    + intros H. destruct (H b eq_refl).
  - repeat split; try congruence. intros _. exists d. split; auto.
Qed.

(** X10: the rows a save writes for the senders are one per sender, in
    order, with the sender's address and provider; the rate written is
    always a number other than 0: the sender's rate when it is one, and
    1440 when the rate is absent, [NaN] or 0. The rate written is an
    integer unless the sender's rate is infinite. *)
Theorem emailRows_rates (campaignId t : string) (c : Campaign.t) :
  length (emailRows campaignId t c) = length (Campaign.emails c)
  /\ forall i (e : EmailWithRate.t), Campaign.emails c !! i = Some e ->
       exists row,
         emailRows campaignId t c !! i = Some row
         /\ CampaignEmailRow.campaign_id row = campaignId
         /\ CampaignEmailRow.email_address row = EmailWithRate.address e
         /\ CampaignEmailRow.provider row = EmailWithRate.smtpProvider e
         /\ CampaignEmailRow.sending_rate row <> Num 0
         /\ CampaignEmailRow.sending_rate row <> NaN
         /\ (forall y, EmailWithRate.sendingRate e = Some (Num y) ->
                       y <> 0%Z ->
                       CampaignEmailRow.sending_rate row = Num y)
         /\ (forall b, EmailWithRate.sendingRate e = Some (Infinity b) ->
                       CampaignEmailRow.sending_rate row = Infinity b)
         /\ (EmailWithRate.sendingRate e = None
             \/ EmailWithRate.sendingRate e = Some NaN
             \/ EmailWithRate.sendingRate e = Some (Num 0) ->
             CampaignEmailRow.sending_rate row = Num 1440)
         /\ ((forall b, EmailWithRate.sendingRate e <> Some (Infinity b)) ->
             exists z, CampaignEmailRow.sending_rate row = Num z
                       /\ z <> 0%Z).
Proof.
  unfold emailRows.
  change (map ?f ?l) with (f <$> l).
  split; [apply length_fmap|].
  intros i e Hi. rewrite list_lookup_fmap, Hi. cbn.
  destruct (orNumber_defined (EmailWithRate.sendingRate e) 1440 ltac:(lia))
    as (H0 & Hn & H1 & H2 & H3 & H4).
  eexists. split; [reflexivity|]. cbn.
  repeat split; assumption.
Qed.

(** X11: when the rate input of a sender is emptied, the draft holds
    [NaN] for every entry with that address, and the row a save writes for
    such an entry has the rate 1440. *)
Theorem cleared_rate_saved_as_default (env : Env) (st : State)
    (cur : Campaign.t) (email : EmailWithRate.t) (campaignId t : string) :
  currentCampaign st = Some cur ->
  exists cur',
    currentCampaign (state_of (run (rateOnChange email "") env st)) = Some cur'
    /\ (forall e : EmailWithRate.t,
          e ∈ Campaign.emails cur' ->
          EmailWithRate.address e = EmailWithRate.address email ->
          EmailWithRate.sendingRate e = Some NaN)
    /\ (forall row,
          row ∈ emailRows campaignId t cur' ->
          CampaignEmailRow.email_address row = EmailWithRate.address email ->
          CampaignEmailRow.sending_rate row = Num 1440).
Proof.
  intros Hcur. unfold rateOnChange.
  change (parseInt "") with NaN.
  rewrite (handleUpdateEmailRate_run env st cur email NaN Hcur). cbn.
  eexists. split; [reflexivity|]. cbn.
  assert (H : forall e : EmailWithRate.t,
             e ∈ (fun e0 : EmailWithRate.t =>
                    if String.eqb (EmailWithRate.address e0)
                                  (EmailWithRate.address email)
                    then {| EmailWithRate.entry := EmailWithRate.entry e0;
                            EmailWithRate.sendingRate := Some NaN |}
                    else e0) <$> Campaign.emails cur ->
             EmailWithRate.address e = EmailWithRate.address email ->
             EmailWithRate.sendingRate e = Some NaN).
  { intros e He Ha. apply list_elem_of_fmap in He as (e0 & -> & _).
    destruct (String.eqb_spec (EmailWithRate.address e0)
                              (EmailWithRate.address email)) as [E|E];
      [reflexivity | contradiction]. }
  split; [exact H|].
  intros row Hrow Ha. unfold emailRows in Hrow. cbn in Hrow.
  change (map ?f ?l) with (f <$> l) in Hrow.
  apply list_elem_of_fmap in Hrow as (e & -> & He). cbn in *.
  rewrite (H e He Ha). reflexivity.
Qed.

(** X12: an update sent by a save is for the draft's own row and
    mentions neither the city nor the user, so that the city of a saved
    campaign stays what it was in the store; an insert is sent only for a
    draft without id and carries the draft's city and the signed-in user.
    Both carry the name given to the save and the draft's subject lines and
    days till close. *)
Theorem handleSaveCampaign_row_payload (env : Env) (st : State)
    (cur : Campaign.t) (name : string) :
  currentCampaign st = Some cur ->
  let r := run (handleSaveCampaign name) env st in
  (forall id row, Remote (UpdateCampaign id row) ∈ trace_of r ->
     id = Campaign.id cur /\ id <> ""
     /\ CampaignRow.city row = None /\ CampaignRow.user_id row = None
     /\ CampaignRow.name row = name
     /\ CampaignRow.subject_lines row = Campaign.subjectLines cur
     /\ CampaignRow.days_till_close row = Campaign.daysTillClose cur)
  /\ (forall row, Remote (InsertCampaign row) ∈ trace_of r ->
        Campaign.id cur = ""
        /\ CampaignRow.city row = Some (Campaign.city cur)
        /\ CampaignRow.user_id row = auth_user env
        /\ CampaignRow.name row = name
        /\ CampaignRow.subject_lines row = Campaign.subjectLines cur
        /\ CampaignRow.days_till_close row = Campaign.daysTillClose cur).
Proof.
  intros Hcur r. subst r. run_save. rewrite Hcur.
  destruct (auth_user env) as [uid|] eqn:Hu; cbn beta iota.
  2:{ cbn. split; intros; split_mem H. }
  destruct (String.eqb_spec (Campaign.id cur) "") as [Hid|Hid]; cbn beta iota.
  - repeat case_step; cbn; (split; [intros rid row H | intros row H]);
      split_mem H; repeat split; assumption.
  - repeat case_step; cbn; (split; [intros rid row H | intros row H]);
      split_mem H; repeat split; assumption.
Qed.

Lemma map_nonempty {A B} (f : A -> B) (l : list A) :
  Nat.ltb 0 (length l) = true -> map f l <> [].
Proof. destruct l; [discriminate | intros _; discriminate]. Qed.

(** X13: a save never sends an empty insert of associations, and the
    rows it inserts are those of the draft, sent after both deletes for the
    same campaign. When the write of the campaign row fails, no association
    is deleted or inserted. When the insert of the template rows fails, the
    save fails with the old associations already deleted and the sender
    rows not inserted. *)
Theorem handleSaveCampaign_associations (env : Env) (st : State)
    (cur : Campaign.t) (name : string) :
  currentCampaign st = Some cur ->
  let r := run (handleSaveCampaign name) env st in
  (forall rows, Remote (InsertCampaignTemplates rows) ∈ trace_of r ->
     rows <> []
     /\ exists cid, rows = templateRows cid cur
          /\ Remote (DeleteCampaignTemplates cid) ∈ trace_of r
          /\ Remote (DeleteCampaignEmails cid) ∈ trace_of r)
  /\ (forall rows, Remote (InsertCampaignEmails rows) ∈ trace_of r ->
        rows <> []
        /\ exists cid, rows = emailRows cid (now env 0) cur
             /\ Remote (DeleteCampaignTemplates cid) ∈ trace_of r
             /\ Remote (DeleteCampaignEmails cid) ∈ trace_of r)
  /\ (forall w, w ∈ trace_of r -> campaignWrite w <> None -> failed env w ->
        forall e, e ∈ trace_of r -> More.touchesAssociations e = false)
  /\ (forall rows, Remote (InsertCampaignTemplates rows) ∈ trace_of r ->
        failed env (Remote (InsertCampaignTemplates rows)) ->
        saveFailed (trace_of r)
        /\ forall rows', Remote (InsertCampaignEmails rows') ∉ trace_of r).
Proof.
  intros Hcur r. subst r. run_save. rewrite Hcur. unfold saveFailed.
  repeat case_step; cbn; (split; [|split; [|split]]).
  all: try (intros rs H; split_mem H; fail).
  all: try (intros w Hw Hc Hf e He;
            first [ split_mem He; reflexivity
                  | exfalso; split_mem Hw; cbn in *; congruence ]).
  all: try (intros rs H Hf; split_mem H; cbn in Hf;
            first [ congruence
                  | split; [solve [in_list] | intros rs' H'; split_mem H'] ]).
  all: intros rs H; split_mem H;
    (split; [apply map_nonempty; assumption|]);
    eexists; (split; [reflexivity|]); split; solve [in_list].
Qed.

(** X14: a save of any draft, whatever the validator says of it, to a
    signed-in store that answers no request with an error: the requests go
    out in the order sign-in lookup, write of the row, delete of the
    template associations, delete of the sender associations, insert of the
    template rows if there are any, insert of the sender rows if there are
    any, and then those of a load of the list; the save does not fail, the
    list is what the load makes of it, and the draft is closed. *)
Theorem handleSaveCampaign_accepted (env : Env) (st : State)
    (cur : Campaign.t) (name uid cid : string) :
  currentCampaign st = Some cur ->
  auth_user env = Some uid ->
  (forall q, error (exec env q) = None) ->
  (if String.eqb (Campaign.id cur) ""
   then data (exec env (InsertCampaign (insertRow uid name (now env 0) cur)))
        = CampaignData cid
   else cid = Campaign.id cur) ->
  let r := run (handleSaveCampaign name) env st in
  let f := run fetchCampaigns env st in
  trace_of r
  = [Remote AuthGetUser; Remote (More.rowWrite uid name (now env 0) cur);
     Remote (DeleteCampaignTemplates cid); Remote (DeleteCampaignEmails cid)]
    ++ match Campaign.templates cur with
       | [] => []
       | _ => [Remote (InsertCampaignTemplates (templateRows cid cur))]
       end
    ++ match Campaign.emails cur with
       | [] => []
       | _ => [Remote (InsertCampaignEmails (emailRows cid (now env 0) cur))]
       end
    ++ trace_of f
  /\ ~ saveFailed (trace_of r)
  /\ campaigns (state_of r) = campaigns (state_of f)
  /\ currentCampaign (state_of r) = None
  /\ isLoading (state_of r) = false.
Proof.
  intros Hcur Hu Hok Hid r f. subst r f. unfold More.rowWrite, saveFailed.
  run_save. rewrite Hcur, Hu. cbv beta iota.
  destruct (String.eqb (Campaign.id cur) ""); cbv beta iota;
    rewrite ?Hok; cbv beta iota; [rewrite Hid | subst cid]; cbv beta iota;
    rewrite ?Hok; cbv beta iota;
    destruct (Campaign.templates cur), (Campaign.emails cur); cbn;
    rewrite ?Hok; cbn;
    repeat case_step; cbn;
    (split; [reflexivity|]);
    (split; [intros H; split_mem H|]); repeat split.
Qed.

(** ** The draft's templates *)

Lemma bodyCount_app (l : list CampaignTemplate.t)
    (x : CampaignTemplate.t) :
  length (List.filter isBody (l ++ [x]))
  = length (List.filter isBody l) + (if isBody x then 1 else 0).
Proof.
  rewrite List.filter_app, length_app. cbn. destruct (isBody x); reflexivity.
Qed.

Lemma existsb_isBody_false (l : list CampaignTemplate.t) :
  existsb isBody l = false -> length (List.filter isBody l) = 0.
Proof.
  intros H. destruct (length (List.filter isBody l)) eqn:E; [reflexivity|].
  assert (existsb isBody l = true) by (apply existsb_isBody_count; lia).
  congruence.
Qed.

Lemma template_not_present (l : list CampaignTemplate.t) (t : Template.t) :
  existsb (fun ct => String.eqb (Template.id (CampaignTemplate.template ct))
                                (Template.id t)) l = false ->
  Template.id t
    ∉ (fun ct => Template.id (CampaignTemplate.template ct)) <$> l.
Proof.
  intros H Hin. apply list_elem_of_fmap in Hin as (ct & E & Hct).
  apply not_true_iff_false in H. apply H. apply existsb_elem_of.
  exists ct. split; [exact Hct|]. apply String.eqb_eq. auto.
Qed.

Lemma templatesOk_snoc (cur cur' : Campaign.t) (t : Template.t) :
  Editor.templatesOk cur ->
  Campaign.templates cur'
  = Campaign.templates cur
    ++ [{| CampaignTemplate.template := t;
           CampaignTemplate.type := templateTypeOf (Template.format t) |}] ->
  existsb (fun ct => String.eqb (Template.id (CampaignTemplate.template ct))
                                (Template.id t))
          (Campaign.templates cur) = false ->
  bool_decide (templateTypeOf (Template.format t) = body)
  && existsb isBody (Campaign.templates cur) = false ->
  Editor.templatesOk cur'.
Proof.
  unfold Editor.templatesOk, bodyCount.
  intros (Hb & Hn & Hf) -> Hd Hg. split; [|split].
  - rewrite bodyCount_app. unfold isBody at 2. cbn.
    destruct (bool_decide (templateTypeOf (Template.format t) = body)); [|lia].
    cbn in Hg. rewrite (existsb_isBody_false _ Hg). lia.
  - rewrite fmap_app. apply NoDup_app. split; [exact Hn|].
    split; [|apply NoDup_singleton].
    intros a Ha Hin. apply list_elem_of_singleton in Hin. cbn in Hin. subst a.
    exact (template_not_present _ _ Hd Ha).
  - apply Forall_app. split; [exact Hf|]. repeat constructor.
Qed.

(** X15: whatever template store and selection it is run with,
    [handleAddTemplate] keeps the draft's templates in order: at most one
    with the body role, no template twice, each with the role of its
    format. *)
Theorem handleAddTemplate_keeps_templatesOk (templates : list Template.t)
    (env : Env) (st : State) (cur : Campaign.t) :
  currentCampaign st = Some cur ->
  Editor.templatesOk cur ->
  exists cur',
    currentCampaign (state_of (run (handleAddTemplate templates) env st))
    = Some cur'
    /\ Editor.templatesOk cur'.
Proof.
  intros Hcur Hok. unfold run, handleAddTemplate. step. rewrite Hcur.
  destruct (String.eqb (selectedTemplateId st) "");
    [exists cur; split; [exact Hcur | exact Hok]|].
  destruct (List.find _ templates) as [t|];
    [|exists cur; split; [exact Hcur | exact Hok]].
  destruct (existsb _ (Campaign.templates cur)) eqn:Hd;
    [exists cur; split; [exact Hcur | exact Hok]|].
  destruct (bool_decide _ && existsb isBody (Campaign.templates cur)) eqn:Hg;
    [exists cur; split; [exact Hcur | exact Hok]|].
  unfold handleUpdateCampaign. step. rewrite Hcur. cbn.
  eexists. split; [reflexivity|].
  eapply templatesOk_snoc; [exact Hok | reflexivity | exact Hd | exact Hg].
Qed.

Lemma templateOptions_spec (templates : list Template.t) (cur : Campaign.t)
    (t : Template.t) :
  t ∈ Editor.templateOptions templates cur <->
  t ∈ templates
  /\ existsb (fun ct => String.eqb (Template.id (CampaignTemplate.template ct))
                                   (Template.id t))
             (Campaign.templates cur) = false
  /\ bool_decide (templateTypeOf (Template.format t) = body)
     && existsb isBody (Campaign.templates cur) = false.
Proof.
  unfold Editor.templateOptions.
  rewrite list_elem_of_In, filter_In, <- list_elem_of_In.
  assert (E : bool_decide (templateTypeOf (Template.format t) = body)
              = String.eqb (Template.format t) "html").
  { unfold templateTypeOf. destruct (String.eqb (Template.format t) "html");
      reflexivity. }
  rewrite E.
  destruct (existsb _ (Campaign.templates cur));
    [split; intros (_ & H); [discriminate | destruct H; discriminate]|].
  destruct (String.eqb (Template.format t) "html"
            && existsb isBody (Campaign.templates cur));
    split; intros (H1 & H2); try discriminate; try tauto.
  destruct H2; discriminate.
Qed.

(** X16: the template select and [handleAddTemplate] agree. For a
    template chosen in the select (its id is the selection, is not empty,
    and is the first of the store with that id): when the select offers it,
    the handler appends it with the role of its format, clears the
    selection and raises no alert; when the select does not offer it, the
    handler raises an alert and changes nothing. *)
Theorem templateOptions_accepted (templates : list Template.t) (env : Env)
    (st : State) (cur : Campaign.t) (t : Template.t) :
  currentCampaign st = Some cur ->
  selectedTemplateId st = Template.id t ->
  Template.id t <> "" ->
  List.find (fun x => String.eqb (Template.id x) (Template.id t)) templates
    = Some t ->
  let r := run (handleAddTemplate templates) env st in
  (t ∈ Editor.templateOptions templates cur ->
     trace_of r = [] /\ selectedTemplateId (state_of r) = ""
     /\ campaigns (state_of r) = campaigns st
     /\ exists cur', currentCampaign (state_of r) = Some cur'
          /\ Campaign.templates cur'
             = Campaign.templates cur
               ++ [{| CampaignTemplate.template := t;
                      CampaignTemplate.type :=
                        templateTypeOf (Template.format t) |}]
          /\ Campaign.emails cur' = Campaign.emails cur
          /\ Campaign.subjectLines cur' = Campaign.subjectLines cur)
  /\ (t ∉ Editor.templateOptions templates cur ->
        state_of r = st /\ exists message, trace_of r = [Alert message]).
Proof.
  intros Hcur Hsel Hne Hfind r. subst r.
  pose proof (templateOptions_spec templates cur t) as Hspec.
  assert (Hin : t ∈ templates).
  { apply list_elem_of_In. apply find_some in Hfind. tauto. }
  unfold run, handleAddTemplate. step. rewrite Hcur, Hsel.
  destruct (String.eqb_spec (Template.id t) ""); [contradiction|].
  rewrite Hfind.
  destruct (existsb _ (Campaign.templates cur)) eqn:Hd.
  { split; [intros H; apply Hspec in H as (_ & H & _); discriminate|].
    intros _. cbn. split; [reflexivity | eexists; reflexivity]. }
  destruct (bool_decide _ && existsb isBody (Campaign.templates cur)) eqn:Hg.
  { split; [intros H; apply Hspec in H as (_ & _ & H); discriminate|].
    intros _. cbn. split; [reflexivity | eexists; reflexivity]. }
  split.
  - intros _. unfold handleUpdateCampaign. step. rewrite Hcur. cbn.
    repeat split. eexists. repeat split.
  - intros H. exfalso. apply H, Hspec. auto.
Qed.

(** ** The draft's senders *)

(** X17: when no address occurs twice among the draft's senders, this
    is still so after an address offered by the sender select is chosen,
    and the chosen address is then among them. *)
Theorem senderOnChange_keeps_sendersOk (sesEmails : list SESEmail.t)
    (googleEmails : list GoogleEmail.t) (env : Env) (st : State)
    (cur : Campaign.t) (o : EmailEntry.t) :
  currentCampaign st = Some cur ->
  Editor.sendersOk cur ->
  o ∈ senderOptions sesEmails googleEmails cur ->
  exists cur',
    currentCampaign
      (state_of (run (senderOnChange sesEmails googleEmails
                                     (EmailEntry.address o)) env st))
    = Some cur'
    /\ Editor.sendersOk cur'
    /\ EmailEntry.address o ∈ EmailWithRate.address <$> Campaign.emails cur'.
Proof.
  intros Hcur Hok Ho. apply senderOptions_spec in Ho as [Ho Hnew].
  unfold senderOnChange.
  destruct (List.find _ (availableEmails sesEmails googleEmails))
    as [email|] eqn:Hf.
  2:{ apply list_elem_of_In in Ho. apply (find_none _ _ Hf) in Ho.
      rewrite String.eqb_refl in Ho. discriminate. }
  apply find_some in Hf as [_ Ha]. apply String.eqb_eq in Ha.
  rewrite (handleAddEmail_run env st cur email Hcur). cbn.
  eexists. split; [reflexivity|]. unfold Editor.sendersOk. cbn.
  rewrite fmap_app. cbn. split.
  - apply NoDup_app. split; [exact Hok|]. split; [|apply NoDup_singleton].
    intros a Ha' Hin. apply list_elem_of_singleton in Hin. subst a.
    apply Hnew. apply list_elem_of_fmap in Ha' as (x & E & Hx).
    exists x. split; [exact Hx|]. unfold EmailWithRate.address in *.
    cbn in E. congruence.
  - apply elem_of_app. right. apply list_elem_of_singleton.
    unfold EmailWithRate.address. cbn. congruence.
Qed.

(** ** Removing one association *)

Ltac stepx :=
  cbv beta iota zeta delta
    [mbind mret Editor.MX_bind Editor.MX_ret Editor.lift Editor.try_catchX
     Editor.remoteRow Editor.domWrite Editor.runX
     M_bind M_ret ret get modify emit alert console_error newDate throw
     throwIfError setCampaigns setCurrentCampaign setSelectedTemplateId
     setIsLoading handleUpdateCampaign].

(** What a removal makes of the draft: [keep] tells the entries that
    stay. *)
Lemma filter_negb_spec {A} (f : A -> string) (a : string) (l : list A) (x : A) :
  x ∈ List.filter (fun y => negb (String.eqb (f y) a)) l
  <-> x ∈ l /\ f x <> a.
Proof. rewrite filter_other_address, list_elem_of_filter. tauto. Qed.

Lemma handleRemoveEmail_local (env : Editor.XEnv) (st : State)
    (cur : Campaign.t) (email : EmailWithRate.t) :
  currentCampaign st = Some cur ->
  Campaign.id cur = ""
  \/ error (Editor.answerRow env
              (Editor.DeleteCampaignEmail (Campaign.id cur)
                                          (EmailWithRate.address email)))
     = None ->
  Editor.runX (Editor.handleRemoveEmail email) env st
  = (inr tt,
     {| campaigns := campaigns st;
        currentCampaign :=
          Some (applyUpdates cur
                  (Updates.of_emails
                     (List.filter
                        (fun e : EmailWithRate.t =>
                           negb (String.eqb (EmailWithRate.address e)
                                            (EmailWithRate.address email)))
                        (Campaign.emails cur)))
                  (now (Editor.base env) 0));
        selectedTemplateId := selectedTemplateId st;
        isLoading := isLoading st |},
     if String.eqb (Campaign.id cur) "" then []
     else [Editor.RemoteRow
             (Editor.DeleteCampaignEmail (Campaign.id cur)
                                         (EmailWithRate.address email))]).
Proof.
  intros Hcur H. unfold Editor.handleRemoveEmail. stepx. rewrite Hcur.
  cbv beta iota.
  destruct (String.eqb_spec (Campaign.id cur) "") as [E|E]; cbn [negb];
    cbv beta iota.
  - rewrite Hcur. reflexivity.
  - destruct H as [H|H]; [contradiction|]. rewrite H. cbv beta iota.
    rewrite Hcur. reflexivity.
Qed.

(** X18: removing a sender from the draft. For a draft that was never
    saved nothing is sent; for a saved one the delete of that one
    association is sent first, and when the store refuses it the alert is
    raised and the state is what it was. Otherwise the draft keeps exactly
    the senders with another address, in their order and with their rates,
    and its other fields but [lastModified]; distinct addresses stay
    distinct. *)
Theorem handleRemoveEmail_behaviour (env : Editor.XEnv) (st : State)
    (cur : Campaign.t) (email : EmailWithRate.t) :
  currentCampaign st = Some cur ->
  let r := Editor.runX (Editor.handleRemoveEmail email) env st in
  let request :=
    Editor.DeleteCampaignEmail (Campaign.id cur)
                               (EmailWithRate.address email) in
  let removed :=
    campaigns (Editor.stateX r) = campaigns st
    /\ exists cur',
         currentCampaign (Editor.stateX r) = Some cur'
         /\ (forall e : EmailWithRate.t,
               e ∈ Campaign.emails cur'
               <-> e ∈ Campaign.emails cur
                   /\ EmailWithRate.address e <> EmailWithRate.address email)
         /\ sublist (Campaign.emails cur') (Campaign.emails cur)
         /\ (Editor.sendersOk cur -> Editor.sendersOk cur')
         /\ Campaign.id cur' = Campaign.id cur
         /\ Campaign.templates cur' = Campaign.templates cur
         /\ Campaign.subjectLines cur' = Campaign.subjectLines cur
         /\ Campaign.city cur' = Campaign.city cur in
  (Campaign.id cur = "" -> Editor.traceX r = [] /\ removed)
  /\ (Campaign.id cur <> "" ->
      error (Editor.answerRow env request) = None ->
      Editor.traceX r = [Editor.RemoteRow request] /\ removed)
  /\ (Campaign.id cur <> "" ->
      error (Editor.answerRow env request) <> None ->
      Editor.stateX r = st
      /\ Editor.traceX r
         = [Editor.RemoteRow request;
            Editor.Base (ConsoleError "Error removing email:");
            Editor.Base (Alert "Failed to remove email. Please try again.")]).
Proof.
  intros Hcur r request removed.
  assert (Hlocal :
    Campaign.id cur = "" \/ error (Editor.answerRow env request) = None ->
    removed).
  { intros H. subst removed r.
    rewrite (handleRemoveEmail_local env st cur email Hcur H). cbn.
    split; [reflexivity|]. eexists. split; [reflexivity|]. cbn.
    split; [intros e; apply (filter_negb_spec EmailWithRate.address)|].
    split; [rewrite filter_other_address; apply sublist_filter|].
    split; [|repeat split].
    unfold Editor.sendersOk. cbn.
    apply (NoDup_filter_other_address EmailWithRate.address). }
  split; [|split].
  - intros E. split; [|apply Hlocal; left; exact E].
    subst r. rewrite (handleRemoveEmail_local env st cur email Hcur (or_introl E)).
    cbn. rewrite E. reflexivity.
  - intros E Hok. split; [|apply Hlocal; right; exact Hok].
    subst r. rewrite (handleRemoveEmail_local env st cur email Hcur (or_intror Hok)).
    cbn. destruct (String.eqb_spec (Campaign.id cur) ""); [contradiction|].
    reflexivity.
  - intros E Herr. subst r request. unfold Editor.handleRemoveEmail. stepx.
    rewrite Hcur. cbv beta iota.
    destruct (String.eqb_spec (Campaign.id cur) ""); [contradiction|].
    cbn [negb]. cbv beta iota.
    destruct (error _) eqn:Hc; [|contradiction]. cbn. split; reflexivity.
Qed.

Lemma handleRemoveTemplate_local (env : Editor.XEnv) (st : State)
    (cur : Campaign.t) (templateId : string) :
  currentCampaign st = Some cur ->
  Campaign.id cur = ""
  \/ error (Editor.answerRow env
              (Editor.DeleteCampaignTemplate (Campaign.id cur) templateId))
     = None ->
  Editor.runX (Editor.handleRemoveTemplate templateId) env st
  = (inr tt,
     {| campaigns := campaigns st;
        currentCampaign :=
          Some (applyUpdates cur
                  (Updates.of_templates
                     (List.filter
                        (fun t => negb (String.eqb
                                          (Template.id
                                             (CampaignTemplate.template t))
                                          templateId))
                        (Campaign.templates cur)))
                  (now (Editor.base env) 0));
        selectedTemplateId := selectedTemplateId st;
        isLoading := isLoading st |},
     if String.eqb (Campaign.id cur) "" then []
     else [Editor.RemoteRow
             (Editor.DeleteCampaignTemplate (Campaign.id cur) templateId)]).
Proof.
  intros Hcur H. unfold Editor.handleRemoveTemplate. stepx. rewrite Hcur.
  cbv beta iota.
  destruct (String.eqb_spec (Campaign.id cur) "") as [E|E]; cbn [negb];
    cbv beta iota.
  - rewrite Hcur. reflexivity.
  - destruct H as [H|H]; [contradiction|]. rewrite H. cbv beta iota.
    rewrite Hcur. reflexivity.
Qed.

Lemma length_filter_filter {A} (p q : A -> bool) (l : list A) :
  length (List.filter p (List.filter q l)) <= length (List.filter p l).
Proof.
  induction l as [|x l IH]; [reflexivity|]. cbn [List.filter].
  destruct (q x); cbn [List.filter]; destruct (p x); cbn [length]; lia.
Qed.

(** X19: removing a template from the draft. For a draft that was never
    saved nothing is sent; for a saved one the delete of that one
    association is sent first, and when the store refuses it the alert is
    raised and the state is what it was. Otherwise the draft keeps exactly
    the templates with another id, in their order and with their roles, and
    its other fields but [lastModified]; templates that were in order
    stay in order. *)
Theorem handleRemoveTemplate_behaviour (env : Editor.XEnv) (st : State)
    (cur : Campaign.t) (templateId : string) :
  currentCampaign st = Some cur ->
  let r := Editor.runX (Editor.handleRemoveTemplate templateId) env st in
  let request :=
    Editor.DeleteCampaignTemplate (Campaign.id cur) templateId in
  let removed :=
    campaigns (Editor.stateX r) = campaigns st
    /\ exists cur',
         currentCampaign (Editor.stateX r) = Some cur'
         /\ (forall t,
               t ∈ Campaign.templates cur'
               <-> t ∈ Campaign.templates cur
                   /\ Template.id (CampaignTemplate.template t) <> templateId)
         /\ sublist (Campaign.templates cur') (Campaign.templates cur)
         /\ (Editor.templatesOk cur -> Editor.templatesOk cur')
         /\ Campaign.id cur' = Campaign.id cur
         /\ Campaign.emails cur' = Campaign.emails cur
         /\ Campaign.subjectLines cur' = Campaign.subjectLines cur
         /\ Campaign.city cur' = Campaign.city cur in
  (Campaign.id cur = "" -> Editor.traceX r = [] /\ removed)
  /\ (Campaign.id cur <> "" ->
      error (Editor.answerRow env request) = None ->
      Editor.traceX r = [Editor.RemoteRow request] /\ removed)
  /\ (Campaign.id cur <> "" ->
      error (Editor.answerRow env request) <> None ->
      Editor.stateX r = st
      /\ Editor.traceX r
         = [Editor.RemoteRow request;
            Editor.Base (ConsoleError "Error removing template:");
            Editor.Base
              (Alert "Failed to remove template. Please try again.")]).
Proof.
  intros Hcur r request removed.
  assert (Hlocal :
    Campaign.id cur = "" \/ error (Editor.answerRow env request) = None ->
    removed).
  { intros H. subst removed r.
    rewrite (handleRemoveTemplate_local env st cur templateId Hcur H). cbn.
    split; [reflexivity|]. eexists. split; [reflexivity|]. cbn.
    pose (f := fun t => Template.id (CampaignTemplate.template t)).
    split; [intros t; apply (filter_negb_spec f)|].
    split; [rewrite (filter_other_address f); apply sublist_filter|].
    split; [|repeat split].
    unfold Editor.templatesOk, bodyCount. cbn. intros (Hb & Hn & Hf).
    split; [|split].
    - etransitivity; [apply length_filter_filter | exact Hb].
    - apply (NoDup_filter_other_address f), Hn.
    - rewrite Forall_forall in *. intros t Ht. apply Hf.
      apply (filter_negb_spec f) in Ht. tauto. }
  split; [|split].
  - intros E. split; [|apply Hlocal; left; exact E].
    subst r.
    rewrite (handleRemoveTemplate_local env st cur templateId Hcur (or_introl E)).
    cbn. rewrite E. reflexivity.
  - intros E Hok. split; [|apply Hlocal; right; exact Hok].
    subst r.
    rewrite (handleRemoveTemplate_local env st cur templateId Hcur
               (or_intror Hok)).
    cbn. destruct (String.eqb_spec (Campaign.id cur) ""); [contradiction|].
    reflexivity.
  - intros E Herr. subst r request. unfold Editor.handleRemoveTemplate. stepx.
    rewrite Hcur. cbv beta iota.
    destruct (String.eqb_spec (Campaign.id cur) ""); [contradiction|].
    cbn [negb]. cbv beta iota.
    destruct (error _) eqn:Hc; [|contradiction]. cbn. split; reflexivity.
Qed.

(** X20: adding a sender whose address is not in the draft and then
    removing it, the store accepting the delete, gives back the draft's
    senders. *)
Theorem add_then_remove_email (env : Editor.XEnv) (st : State)
    (cur : Campaign.t) (email : EmailEntry.t) :
  currentCampaign st = Some cur ->
  EmailEntry.address email ∉ EmailWithRate.address <$> Campaign.emails cur ->
  (forall q, error (Editor.answerRow env q) = None) ->
  exists cur',
    currentCampaign
      (Editor.stateX
         (Editor.runX
            (Editor.handleRemoveEmail
               {| EmailWithRate.entry := email;
                  EmailWithRate.sendingRate := Some (Num 1440) |})
            env
            (state_of (run (handleAddEmail email) (Editor.base env) st))))
    = Some cur'
    /\ Campaign.emails cur' = Campaign.emails cur
    /\ Campaign.templates cur' = Campaign.templates cur
    /\ Campaign.subjectLines cur' = Campaign.subjectLines cur.
Proof.
  intros Hcur Hnew Hok.
  rewrite (handleAddEmail_run (Editor.base env) st cur email Hcur). cbn.
  erewrite handleRemoveEmail_local; [|reflexivity | right; apply Hok].
  cbn. eexists. split; [reflexivity|]. cbn.
  split; [|split; reflexivity].
  rewrite List.filter_app.
  change (EmailWithRate.address
            {| EmailWithRate.entry := email;
               EmailWithRate.sendingRate := Some (Num 1440) |})
    with (EmailEntry.address email).
  rewrite (filter_other_address_id EmailWithRate.address _ _ Hnew).
  cbn [List.filter].
  change (EmailWithRate.address
            {| EmailWithRate.entry := email;
               EmailWithRate.sendingRate := Some (Num 1440) |})
    with (EmailEntry.address email).
  rewrite String.eqb_refl. cbn. apply app_nil_r.
Qed.

(** ** The draft's subject lines *)

Lemma skipWhiteSpace_head (s : string) :
  skipWhiteSpace s = ""
  \/ exists c r, skipWhiteSpace s = String c r /\ isStrWhiteSpace c = false.
Proof.
  induction s as [|c s IH]; [left; reflexivity|]. cbn [skipWhiteSpace].
  destruct (isStrWhiteSpace c) eqn:E; [exact IH|].
  right. exists c, s. split; [reflexivity | exact E].
Qed.

Lemma trimEnd_cons (c : ascii) (s : string) :
  Editor.trimEnd (String c s)
  = if isStrWhiteSpace c && String.eqb (Editor.trimEnd s) "" then ""
    else String c (Editor.trimEnd s).
Proof. reflexivity. Qed.

Lemma trimEnd_idem (s : string) :
  Editor.trimEnd (Editor.trimEnd s) = Editor.trimEnd s.
Proof.
  induction s as [|c s IH]; [reflexivity|]. rewrite trimEnd_cons.
  destruct (isStrWhiteSpace c && String.eqb (Editor.trimEnd s) "") eqn:E;
    [reflexivity|].
  rewrite trimEnd_cons, IH, E. reflexivity.
Qed.

Lemma trim_idem (s : string) : Editor.trim (Editor.trim s) = Editor.trim s.
Proof.
  unfold Editor.trim.
  destruct (skipWhiteSpace_head s) as [->|(c & r & -> & Hc)]; [reflexivity|].
  assert (H : forall r', Editor.trimEnd (String c r')
                         = String c (Editor.trimEnd r'))
    by (intros r'; rewrite trimEnd_cons, Hc; reflexivity).
  rewrite H. cbn [skipWhiteSpace]. rewrite Hc, H, trimEnd_idem. reflexivity.
Qed.

(** A string of white space only is trimmed to the empty string. *)
Lemma trim_blank (s : string) :
  forallb isStrWhiteSpace (list_ascii_of_string s) = true ->
  Editor.trim s = "".
Proof.
  unfold Editor.trim. induction s as [|c s IH]; [reflexivity|].
  cbn [list_ascii_of_string forallb skipWhiteSpace].
  intros H. apply andb_true_iff in H as [Hc H]. rewrite Hc. apply IH, H.
Qed.

Lemma handleAddSubjectLine_run (env : Editor.XEnv) (st : State)
    (cur : Campaign.t) (v : string) :
  currentCampaign st = Some cur ->
  Editor.trim v <> "" ->
  Editor.runX (Editor.handleAddSubjectLine (Some v)) env st
  = (inr tt,
     {| campaigns := campaigns st;
        currentCampaign :=
          Some (applyUpdates cur
                  (Editor.of_subjectLines
                     (Campaign.subjectLines cur ++ [Editor.trim v]))
                  (now (Editor.base env) 0));
        selectedTemplateId := selectedTemplateId st;
        isLoading := isLoading st |},
     [Editor.DomWrite "newSubjectLine" ""]).
Proof.
  intros Hcur Hv. unfold Editor.handleAddSubjectLine. stepx. rewrite Hcur.
  cbv beta iota.
  destruct (String.eqb_spec (Editor.trim v) ""); [contradiction|].
  cbv beta iota. rewrite Hcur. reflexivity.
Qed.

(** X21: adding a subject line. With no input element, or an input
    that is empty or white space only, nothing happens at all. Otherwise
    the trimmed input is appended as the last subject line, the other
    fields of the draft but [lastModified] stay, the input is cleared and
    nothing is sent; the new line is not empty and has no white space
    around it, so that subject lines that were all so stay so. *)
Theorem handleAddSubjectLine_behaviour (env : Editor.XEnv) (st : State)
    (cur : Campaign.t) :
  currentCampaign st = Some cur ->
  Editor.runX (Editor.handleAddSubjectLine None) env st = (inr tt, st, [])
  /\ (forall v, Editor.trim v = "" ->
        Editor.runX (Editor.handleAddSubjectLine (Some v)) env st
        = (inr tt, st, []))
  /\ (forall v, forallb isStrWhiteSpace (list_ascii_of_string v) = true ->
        Editor.trim v = "")
  /\ (forall v, Editor.trim v <> "" ->
        let r := Editor.runX (Editor.handleAddSubjectLine (Some v)) env st in
        Editor.traceX r = [Editor.DomWrite "newSubjectLine" ""]
        /\ campaigns (Editor.stateX r) = campaigns st
        /\ exists cur',
             currentCampaign (Editor.stateX r) = Some cur'
             /\ Campaign.subjectLines cur'
                = Campaign.subjectLines cur ++ [Editor.trim v]
             /\ Editor.trim (Editor.trim v) = Editor.trim v
             /\ (Editor.subjectLinesOk cur -> Editor.subjectLinesOk cur')
             /\ Campaign.templates cur' = Campaign.templates cur
             /\ Campaign.emails cur' = Campaign.emails cur
             /\ Campaign.city cur' = Campaign.city cur
             /\ Campaign.id cur' = Campaign.id cur).
Proof.
  intros Hcur. split; [|split; [|split]].
  - unfold Editor.handleAddSubjectLine. stepx. rewrite Hcur. reflexivity.
  - intros v Hv. unfold Editor.handleAddSubjectLine. stepx. rewrite Hcur.
    cbv beta iota. rewrite Hv. reflexivity.
  - apply trim_blank.
  - intros v Hv r. subst r. rewrite (handleAddSubjectLine_run env st cur v Hcur Hv).
    cbn. split; [reflexivity|]. split; [reflexivity|].
    eexists. split; [reflexivity|]. cbn.
    split; [reflexivity|]. split; [apply trim_idem|].
    split; [|repeat split].
    unfold Editor.subjectLinesOk. cbn. intros H.
    apply Forall_app. split; [exact H|].
    repeat constructor; [exact Hv | apply trim_idem].
Qed.

Lemma handleRemoveSubjectLine_run (env : Env) (st : State) (cur : Campaign.t)
    (index : nat) :
  currentCampaign st = Some cur ->
  run (Editor.handleRemoveSubjectLine index) env st
  = (inr tt,
     {| campaigns := campaigns st;
        currentCampaign :=
          Some (applyUpdates cur
                  (Editor.of_subjectLines
                     (delete index (Campaign.subjectLines cur)))
                  (now env 0));
        selectedTemplateId := selectedTemplateId st;
        isLoading := isLoading st |},
     []).
Proof.
  intros Hcur. unfold run, Editor.handleRemoveSubjectLine. step. rewrite Hcur.
  unfold handleUpdateCampaign. step. rewrite Hcur. reflexivity.
Qed.

(** X22: removing the subject line at a position sends nothing and
    keeps the draft's other fields but [lastModified]. For a position
    of the list, the line there is dropped: the lines before it keep
    their place and the lines after it move up by one. For a position
    beyond the list the lines are as they were. Lines that were non-empty
    and trimmed stay so. *)
Theorem handleRemoveSubjectLine_behaviour (env : Env) (st : State)
    (cur : Campaign.t) (index : nat) :
  currentCampaign st = Some cur ->
  let r := run (Editor.handleRemoveSubjectLine index) env st in
  trace_of r = [] /\ campaigns (state_of r) = campaigns st
  /\ exists cur',
       currentCampaign (state_of r) = Some cur'
       /\ (index < length (Campaign.subjectLines cur) ->
           S (length (Campaign.subjectLines cur'))
           = length (Campaign.subjectLines cur)
           /\ (forall j, j < index ->
                 Campaign.subjectLines cur' !! j
                 = Campaign.subjectLines cur !! j)
           /\ (forall j, index <= j ->
                 Campaign.subjectLines cur' !! j
                 = Campaign.subjectLines cur !! S j))
       /\ (length (Campaign.subjectLines cur) <= index ->
           Campaign.subjectLines cur' = Campaign.subjectLines cur)
       /\ (Editor.subjectLinesOk cur -> Editor.subjectLinesOk cur')
       /\ Campaign.templates cur' = Campaign.templates cur
       /\ Campaign.emails cur' = Campaign.emails cur
       /\ Campaign.city cur' = Campaign.city cur
       /\ Campaign.id cur' = Campaign.id cur.
Proof.
  intros Hcur r. subst r. rewrite (handleRemoveSubjectLine_run env st cur index Hcur).
  cbn. split; [reflexivity|]. split; [reflexivity|].
  eexists. split; [reflexivity|]. cbn.
  split; [|split; [|split]].
  - intros Hi. split; [|split].
    + pose proof (length_delete (Campaign.subjectLines cur) index) as H.
      rewrite (H (lookup_lt_is_Some_2 _ _ Hi)). lia.
    + intros j Hj. apply list_lookup_delete_lt, Hj.
    + intros j Hj. apply list_lookup_delete_ge, Hj.
  - intros Hi. rewrite delete_take_drop.
    rewrite take_ge by exact Hi. rewrite drop_ge by lia. apply app_nil_r.
  - unfold Editor.subjectLinesOk. cbn. intros H.
    rewrite Forall_forall in *. intros l Hl. apply H.
    eapply elem_of_sublist; [exact Hl | apply sublist_delete].
  - repeat split.
Qed.

(** X23: adding a subject line and then removing the last position
    gives back the draft's subject lines. *)
Theorem add_then_remove_subjectLine (env : Editor.XEnv) (st : State)
    (cur : Campaign.t) (v : string) :
  currentCampaign st = Some cur ->
  Editor.trim v <> "" ->
  exists cur',
    currentCampaign
      (state_of
         (run (Editor.handleRemoveSubjectLine
                 (length (Campaign.subjectLines cur)))
              (Editor.base env)
              (Editor.stateX
                 (Editor.runX (Editor.handleAddSubjectLine (Some v)) env st))))
    = Some cur'
    /\ Campaign.subjectLines cur' = Campaign.subjectLines cur.
Proof.
  intros Hcur Hv. rewrite (handleAddSubjectLine_run env st cur v Hcur Hv). cbn.
  erewrite handleRemoveSubjectLine_run by reflexivity. cbn.
  eexists. split; [reflexivity|]. cbn.
  rewrite delete_take_drop, take_app_length.
  rewrite drop_ge by (rewrite length_app; cbn; lia). apply app_nil_r.
Qed.

(** ** What reaches the store from the Google tab *)

(** X24: an insert of a Google credential is sent only for a signed-in
    user and carries the form's address and password as they are; the
    address is then a non-empty local part without white space and [@]
    followed by [@gmail.com], the password has sixteen characters, all
    letters or digits, and the address is not in the cached list. *)
Theorem handleAddGoogleEmail_sends_only_wellformed (env : Env)
    (st : GoogleTab.State) (uid a p : string) :
  Remote (InsertGoogleEmail uid a p)
    ∈ trace_of (run GoogleTab.handleAddGoogleEmail env st) ->
  a = GoogleTab.newEmail st /\ p = GoogleTab.newAppPassword st
  /\ auth_user env = Some uid
  /\ (exists l, l <> EmptyString
        /\ Forall (fun c => GoogleTab.isLocalChar c = true)
                  (list_ascii_of_string l)
        /\ a = String.append l "@gmail.com")
  /\ String.length p = 16
  /\ Forall (fun c => GoogleTab.isAlnum c = true) (list_ascii_of_string p)
  /\ a ∉ GoogleEmail.address <$> GoogleTab.googleEmails st.
Proof.
  unfold run, GoogleTab.handleAddGoogleEmail. step.
  destruct (GoogleTab.validateEmail (GoogleTab.newEmail st)) eqn:He;
    cbv beta iota delta [negb]; [|cbn; intros H; split_mem H].
  destruct (GoogleTab.validateAppPassword (GoogleTab.newAppPassword st))
    eqn:Hp; cbv beta iota delta [negb]; [|cbn; intros H; split_mem H].
  destruct (existsb _ (GoogleTab.googleEmails st)) eqn:Hc;
    cbv beta iota; [cbn; intros H; split_mem H|].
  apply validateEmail_spec in He. apply validateAppPassword_spec in Hp.
  apply not_cached_iff in Hc.
  repeat case_step; cbn; intros H; split_mem H;
    (repeat (split; [reflexivity || assumption|])); tauto.
Qed.

(** * The further theorems at sample values *)

Ltac distinct := apply (bool_decide_unpack _); vm_compute; exact I.

(** The cached list of [tabFresh] has distinct addresses, and still has after [b@gmail.com] is added. *)
Lemma googleTab_keeps_addresses_distinct_witness :
  More.cacheOk Sample.tabFresh
  /\ More.cacheOk
       (state_of (run GoogleTab.handleAddGoogleEmail Sample.env Sample.tabFresh)).
Proof.
  assert (H : More.cacheOk Sample.tabFresh) by (unfold More.cacheOk; distinct).
  split; [exact H|].
  apply (proj1 (googleTab_keeps_addresses_distinct Sample.env Sample.tabFresh H)).
Defined.

(** Removing [a@gmail.com] with a store that accepts it. *)
Lemma handleRemoveGoogleEmail_removes_witness :
  auth_user Sample.env = Some "u1"
  /\ error (exec Sample.env (DeleteGoogleEmail "u1" "a@gmail.com")) = None
  /\ trace_of (run (GoogleTab.handleRemoveGoogleEmail "a@gmail.com")
                   Sample.env Sample.tabFresh)
     = [Remote AuthGetUser; Remote (DeleteGoogleEmail "u1" "a@gmail.com")].
Proof.
  split; [reflexivity|]. split; [reflexivity|].
  apply (proj1 (handleRemoveGoogleEmail_removes Sample.env Sample.tabFresh
                  "a@gmail.com" "u1" eq_refl eq_refl)).
Defined.

(** Adding [b@gmail.com] and removing it again leaves [a@gmail.com] alone in the cached list. *)
Lemma googleTab_add_then_remove_witness :
  GoogleTab.validateEmail (GoogleTab.newEmail Sample.tabFresh) = true
  /\ GoogleTab.validateAppPassword (GoogleTab.newAppPassword Sample.tabFresh)
     = true
  /\ GoogleTab.googleEmails
       (state_of (run (GoogleTab.handleRemoveGoogleEmail "b@gmail.com")
                      Sample.env
                      (state_of (run GoogleTab.handleAddGoogleEmail Sample.env
                                     Sample.tabFresh))))
     = [Sample.google "a@gmail.com"].
Proof.
  split; [reflexivity|]. split; [reflexivity|].
  apply (googleTab_add_then_remove Sample.env Sample.tabFresh "u1"
           eq_refl eq_refl).
  - apply (bool_decide_unpack _). vm_compute. exact I.
  - reflexivity.
  - intros q. destruct q; reflexivity.
Defined.

(** Turning on a campaign without senders is refused with the validator's reason. *)
Lemma handleToggleActive_gate_witness :
  List.find (fun c => String.eqb (Campaign.id c) "c1")
            (campaigns Fixture.listed) = Some Fixture.noSenders
  /\ valid (validateCampaign Fixture.noSenders) = false
  /\ exists message,
       reason (validateCampaign Fixture.noSenders) = Some message
       /\ run (handleToggleActive "c1" true) Sample.env Fixture.listed
          = (inr tt, Fixture.listed, [Alert message]).
Proof.
  split; [reflexivity|]. split; [reflexivity|].
  apply (proj1 (handleToggleActive_gate Sample.env Fixture.listed "c1")
           Fixture.noSenders); reflexivity.
Defined.

(** Turning on a campaign the validator accepts sends the one update. *)
Lemma handleToggleActive_frame_witness :
  List.find (fun c => String.eqb (Campaign.id c) "c2")
            (campaigns Fixture.listed) = Some Sample.twoBodies
  /\ valid (validateCampaign Sample.twoBodies) = true
  /\ trace_of (run (handleToggleActive "c2" true) Sample.env Fixture.listed)
     = [Remote (UpdateCampaignStatus "c2" true (now Sample.env 0))].
Proof.
  split; [reflexivity|]. split; [reflexivity|].
  apply (proj1 (handleToggleActive_frame Sample.env Fixture.listed "c2" true
                  Sample.twoBodies eq_refl (or_intror eq_refl) eq_refl)).
Defined.

(** The list [listed] has distinct ids and no active campaign; after a toggle every active campaign is valid. *)
Lemma handleToggleActive_keeps_active_valid_witness :
  NoDup (Campaign.id <$> campaigns Fixture.listed)
  /\ More.activeValid (campaigns Fixture.listed)
  /\ More.activeValid
       (campaigns (state_of (run (handleToggleActive "c2" true) Sample.env
                                 Fixture.listed))).
Proof.
  assert (H1 : NoDup (Campaign.id <$> campaigns Fixture.listed)) by distinct.
  assert (H2 : More.activeValid (campaigns Fixture.listed))
    by (repeat constructor; discriminate).
  split; [exact H1|]. split; [exact H2|].
  apply (proj1 (handleToggleActive_keeps_active_valid Sample.env Fixture.listed
                  "c2" true H1 H2)).
Defined.

(** Deleting the campaign [c1] with a store that accepts it. *)
Lemma handleDeleteCampaign_removes_witness :
  error (exec Sample.env (DeleteCampaign "c1")) = None
  /\ trace_of (run (handleDeleteCampaign "c1") Sample.env Fixture.listed)
     = [Remote (DeleteCampaign "c1")].
Proof.
  split; [reflexivity|].
  apply (proj1 (handleDeleteCampaign_removes Sample.env Fixture.listed "c1"
                  eq_refl)).
Defined.

(** Emptying the rate input of the sender of [chicago]: its row would be written with rate 1440. *)
Lemma cleared_rate_saved_as_default_witness :
  currentCampaign Sample.editing = Some Sample.chicago
  /\ exists cur',
       currentCampaign
         (state_of (run (rateOnChange (Sample.sender "a@gmail.com" gmail 1440)
                                      "")
                        Sample.env Sample.editing)) = Some cur'
       /\ forall row,
            row ∈ emailRows "c1" "t" cur' ->
            CampaignEmailRow.email_address row = "a@gmail.com" ->
            CampaignEmailRow.sending_rate row = Num 1440.
Proof.
  split; [reflexivity|].
  destruct (cleared_rate_saved_as_default Sample.env Sample.editing
              Sample.chicago (Sample.sender "a@gmail.com" gmail 1440)
              "c1" "t" eq_refl) as (cur' & H1 & _ & H2).
  exists cur'. split; [exact H1 | exact H2].
Defined.

(** Saving the draft [chicago], whose row exists: an update is for [c1] and has no city. *)
Lemma handleSaveCampaign_row_payload_witness :
  currentCampaign Sample.editing = Some Sample.chicago
  /\ forall id row,
       Remote (UpdateCampaign id row)
         ∈ trace_of (run (handleSaveCampaign "Spring") Sample.env
                         Sample.editing) ->
       id = "c1" /\ CampaignRow.city row = None.
Proof.
  split; [reflexivity|]. intros id row H.
  destruct (proj1 (handleSaveCampaign_row_payload Sample.env Sample.editing
                     Sample.chicago "Spring" eq_refl) id row H)
    as (H1 & _ & H2 & _).
  split; [exact H1 | exact H2].
Defined.

(** Saving the draft [chicago]: an insert of template rows is not empty. *)
Lemma handleSaveCampaign_associations_witness :
  currentCampaign Sample.editing = Some Sample.chicago
  /\ forall rows,
       Remote (InsertCampaignTemplates rows)
         ∈ trace_of (run (handleSaveCampaign "Spring") Sample.env
                         Sample.editing) ->
       rows <> [].
Proof.
  split; [reflexivity|]. intros rows H.
  apply (proj1 (handleSaveCampaign_associations Sample.env Sample.editing
                  Sample.chicago "Spring" eq_refl) rows H).
Defined.

(** Saving the draft [chicago] with a store that accepts everything closes the draft. *)
Lemma handleSaveCampaign_accepted_witness :
  currentCampaign Sample.editing = Some Sample.chicago
  /\ auth_user Sample.env = Some "u1"
  /\ ~ saveFailed (trace_of (run (handleSaveCampaign "Spring") Sample.env
                                 Sample.editing))
  /\ currentCampaign
       (state_of (run (handleSaveCampaign "Spring") Sample.env Sample.editing))
     = None.
Proof.
  split; [reflexivity|]. split; [reflexivity|].
  destruct (handleSaveCampaign_accepted Sample.env Sample.editing
              Sample.chicago "Spring" "u1" "c1" eq_refl eq_refl
              ltac:(intros q; destruct q; reflexivity) eq_refl)
    as (_ & H1 & _ & H2 & _).
  split; [exact H1 | exact H2].
Defined.

(** The templates of [chicago] are in order, and still are after an attempt to add [t2]. *)
Lemma handleAddTemplate_keeps_templatesOk_witness :
  currentCampaign Sample.editing = Some Sample.chicago
  /\ Editor.templatesOk Sample.chicago
  /\ exists cur',
       currentCampaign
         (state_of (run (handleAddTemplate Sample.store) Sample.env
                        Sample.editing)) = Some cur'
       /\ Editor.templatesOk cur'.
Proof.
  assert (H : Editor.templatesOk Sample.chicago).
  { split; [vm_compute; lia|]. split; [distinct | repeat constructor]. }
  split; [reflexivity|]. split; [exact H|].
  apply (handleAddTemplate_keeps_templatesOk Sample.store Sample.env
           Sample.editing Sample.chicago eq_refl H).
Defined.

(** The select offers the docx template for the unsaved draft, and adding it raises no alert. *)
Lemma templateOptions_accepted_witness :
  currentCampaign Fixture.drafting = Some Fixture.unsaved
  /\ selectedTemplateId Fixture.drafting = Template.id Sample.docx1
  /\ Sample.docx1 ∈ Editor.templateOptions Sample.store Fixture.unsaved
  /\ trace_of (run (handleAddTemplate Sample.store) Sample.env Fixture.drafting)
     = [].
Proof.
  assert (H : Sample.docx1 ∈ Editor.templateOptions Sample.store Fixture.unsaved)
    by (vm_compute; in_list).
  split; [reflexivity|]. split; [reflexivity|]. split; [exact H|].
  apply (proj1 (templateOptions_accepted Sample.store Sample.env
                  Fixture.drafting Fixture.unsaved Sample.docx1
                  eq_refl eq_refl ltac:(discriminate) eq_refl) H).
Defined.

(** Choosing the offered [s@corp.com] keeps the senders of [chicago] distinct. *)
Lemma senderOnChange_keeps_sendersOk_witness :
  currentCampaign Sample.editing = Some Sample.chicago
  /\ Editor.sendersOk Sample.chicago
  /\ exists cur',
       currentCampaign
         (state_of (run (senderOnChange [Sample.ses "s@corp.com"] []
                                        "s@corp.com")
                        Sample.env Sample.editing)) = Some cur'
       /\ Editor.sendersOk cur'.
Proof.
  assert (H : Editor.sendersOk Sample.chicago)
    by (unfold Editor.sendersOk; distinct).
  split; [reflexivity|]. split; [exact H|].
  destruct (senderOnChange_keeps_sendersOk [Sample.ses "s@corp.com"] []
              Sample.env Sample.editing Sample.chicago
              {| EmailEntry.address := "s@corp.com";
                 EmailEntry.smtpProvider := amazon |}
              eq_refl H ltac:(vm_compute; in_list))
    as (cur' & H1 & H2 & _).
  exists cur'. split; [exact H1 | exact H2].
Defined.

(** Removing the sender of the saved draft [chicago] sends the delete of that one association. *)
Lemma handleRemoveEmail_behaviour_witness :
  currentCampaign Sample.editing = Some Sample.chicago
  /\ Editor.traceX
       (Editor.runX (Editor.handleRemoveEmail
                       (Sample.sender "a@gmail.com" gmail 1440))
                    Fixture.xenv Sample.editing)
     = [Editor.RemoteRow (Editor.DeleteCampaignEmail "c1" "a@gmail.com")].
Proof.
  split; [reflexivity|].
  apply (proj1 (proj2 (handleRemoveEmail_behaviour Fixture.xenv Sample.editing
                         Sample.chicago
                         (Sample.sender "a@gmail.com" gmail 1440) eq_refl))
           ltac:(discriminate) eq_refl).
Defined.

(** Removing a template from a draft that was never saved sends nothing. *)
Lemma handleRemoveTemplate_behaviour_witness :
  currentCampaign Fixture.drafting = Some Fixture.unsaved
  /\ Editor.traceX
       (Editor.runX (Editor.handleRemoveTemplate "t1") Fixture.xenv
                    Fixture.drafting)
     = [].
Proof.
  split; [reflexivity|].
  apply (proj1 (handleRemoveTemplate_behaviour Fixture.xenv Fixture.drafting
                  Fixture.unsaved "t1" eq_refl) eq_refl).
Defined.

(** Adding [s@corp.com] to [chicago] and removing it again leaves the one sender it had. *)
Lemma add_then_remove_email_witness :
  currentCampaign Sample.editing = Some Sample.chicago
  /\ exists cur',
       currentCampaign
         (Editor.stateX
            (Editor.runX
               (Editor.handleRemoveEmail (Sample.sender "s@corp.com" amazon 1440))
               Fixture.xenv
               (state_of (run (handleAddEmail
                                 {| EmailEntry.address := "s@corp.com";
                                    EmailEntry.smtpProvider := amazon |})
                              Sample.env Sample.editing))))
       = Some cur'
       /\ Campaign.emails cur' = [Sample.sender "a@gmail.com" gmail 1440].
Proof.
  split; [reflexivity|].
  destruct (add_then_remove_email Fixture.xenv Sample.editing Sample.chicago
              {| EmailEntry.address := "s@corp.com";
                 EmailEntry.smtpProvider := amazon |}
              eq_refl ltac:(distinct) ltac:(reflexivity))
    as (cur' & H1 & H2 & _).
  exists cur'. split; [exact H1 | exact H2].
Defined.

(** The input [  Hello  ] is added as [Hello]. *)
Lemma handleAddSubjectLine_behaviour_witness :
  currentCampaign Fixture.drafting = Some Fixture.unsaved
  /\ Editor.trim "  Hello  " = "Hello"
  /\ exists cur',
       currentCampaign
         (Editor.stateX
            (Editor.runX (Editor.handleAddSubjectLine (Some "  Hello  "))
                         Fixture.xenv Fixture.drafting)) = Some cur'
       /\ Campaign.subjectLines cur' = ["Hi"; "Hello"].
Proof.
  split; [reflexivity|]. split; [reflexivity|].
  destruct (proj2 (proj2 (proj2 (handleAddSubjectLine_behaviour Fixture.xenv
                                   Fixture.drafting Fixture.unsaved eq_refl)))
              "  Hello  " ltac:(discriminate))
    as (_ & _ & cur' & H1 & H2 & _).
  exists cur'. split; [exact H1 | exact H2].
Defined.

(** Removing the first subject line of the unsaved draft sends nothing. *)
Lemma handleRemoveSubjectLine_behaviour_witness :
  currentCampaign Fixture.drafting = Some Fixture.unsaved
  /\ trace_of (run (Editor.handleRemoveSubjectLine 0) Sample.env
                   Fixture.drafting) = [].
Proof.
  split; [reflexivity|].
  apply (proj1 (handleRemoveSubjectLine_behaviour Sample.env Fixture.drafting
                  Fixture.unsaved 0 eq_refl)).
Defined.

(** Adding [Hello] and removing position 1 leaves the one line the draft had. *)
Lemma add_then_remove_subjectLine_witness :
  currentCampaign Fixture.drafting = Some Fixture.unsaved
  /\ Editor.trim "Hello" <> ""
  /\ exists cur',
       currentCampaign
         (state_of
            (run (Editor.handleRemoveSubjectLine 1) Sample.env
                 (Editor.stateX
                    (Editor.runX (Editor.handleAddSubjectLine (Some "Hello"))
                                 Fixture.xenv Fixture.drafting))))
       = Some cur'
       /\ Campaign.subjectLines cur' = ["Hi"].
Proof.
  split; [reflexivity|]. split; [discriminate|].
  apply (add_then_remove_subjectLine Fixture.xenv Fixture.drafting
           Fixture.unsaved "Hello" eq_refl ltac:(discriminate)).
Defined.

(** The insert sent for [tabFresh] carries a password of sixteen characters and an address that is not cached. *)
Lemma handleAddGoogleEmail_sends_only_wellformed_witness :
  Remote (InsertGoogleEmail "u1" "b@gmail.com" "abcdefgh12345678")
    ∈ trace_of (run GoogleTab.handleAddGoogleEmail Sample.env Sample.tabFresh)
  /\ String.length "abcdefgh12345678" = 16
  /\ "b@gmail.com"
       ∉ GoogleEmail.address <$> GoogleTab.googleEmails Sample.tabFresh.
Proof.
  assert (H : Remote (InsertGoogleEmail "u1" "b@gmail.com" "abcdefgh12345678")
                ∈ trace_of (run GoogleTab.handleAddGoogleEmail Sample.env
                                Sample.tabFresh))
    by (vm_compute; in_list).
  split; [exact H|].
  destruct (handleAddGoogleEmail_sends_only_wellformed Sample.env
              Sample.tabFresh "u1" "b@gmail.com" "abcdefgh12345678" H)
    as (_ & _ & _ & _ & H1 & _ & H2).
  split; [exact H1 | exact H2].
Defined.

(** Setting the rate of the sender of [chicago] to 60 sends nothing and leaves the list alone. *)
Lemma handleUpdateEmailRate_frame_witness :
  currentCampaign Sample.editing = Some Sample.chicago
  /\ trace_of (run (handleUpdateEmailRate
                      (Sample.sender "a@gmail.com" gmail 1440) (Num 60))
                   Sample.env Sample.editing) = []
  /\ campaigns
       (state_of (run (handleUpdateEmailRate
                         (Sample.sender "a@gmail.com" gmail 1440) (Num 60))
                      Sample.env Sample.editing))
     = campaigns Sample.editing.
Proof.
  split; [reflexivity|].
  destruct (handleUpdateEmailRate_frame Sample.env Sample.editing
              Sample.chicago (Sample.sender "a@gmail.com" gmail 1440)
              (Num 60) eq_refl) as (H1 & H2 & _).
  split; [exact H1 | exact H2].
Defined.
